(** * zephyr/handlers.py: error-report handlers

    A shallow embedding of [format_record], [AdminHumbugHandler] and
    [HumbugAdminEmailHandler], and the properties of the report they build.

    Python strings are [string]; [%s] formatting is concatenation of the
    rendered text; a call or attribute read that may raise has a result in
    [outcome]; the calls that act on the outside world (sending a message,
    logging locally, mailing the admins) are recorded in a trace.  The
    [import] statements inside the methods are taken to succeed. *)

From Stdlib Require Import Ascii String List Lia.
From stdpp Require Import base option strings gmap.

(** ** Characters and string operations of the Python runtime *)

Definition LF : ascii := "010"%char.
Definition CR : ascii := "013"%char.
Definition DQUOTE : ascii := "034"%char.
Definition BACKSLASH : ascii := "092"%char.

(** The one-character strings ['\n'] and ['\r']. *)
Definition nl : string := String LF EmptyString.
Definition cr : string := String CR EmptyString.
(** The two-character strings ['\\n'] and ['\\r'] (a backslash and a letter). *)
Definition esc_n : string := String BACKSLASH "n".
Definition esc_r : string := String BACKSLASH "r".

(** [str.replace(old, new)] for a pattern [old] that is not empty: the
    occurrences are found from the left and do not overlap.  [skip] counts the
    characters of a matched occurrence that are still to be passed over. *)
Fixpoint replace_from (old new : string) (skip : nat) (s : string) : string :=
  match s with
  | EmptyString => EmptyString
  | String c s' =>
      match skip with
      | S k => replace_from old new k s'
      | O =>
          if String.prefix old s
          then new +:+ replace_from old new (String.length old - 1) s'
          else String c (replace_from old new 0 s')
      end
  end.

Definition replace (old new s : string) : string := replace_from old new 0 s.

(** The slice [s[:n]] for a bound [n] that is not negative. *)
Fixpoint slice_to (n : nat) (s : string) : string :=
  match n, s with
  | O, _ => EmptyString
  | S _, EmptyString => EmptyString
  | S k, String c s' => String c (slice_to k s')
  end.

(** [''.join(parts)]. *)
Definition join (parts : list string) : string :=
  fold_right String.append EmptyString parts.

(** ** Exceptions and results *)

(** The exception classes that matter here.  The first three derive from
    [BaseException] only; every other class derives from [Exception]. *)
Inductive PyExc : Type :=
  | KeyboardInterrupt
  | SystemExit
  | GeneratorExit
  | AttributeError (what : string)
  | TypeError (what : string)
  | KeyError (what : string)
  | DoesNotExist (what : string)
  | OtherException (class_name : string).

Definition is_Exception (e : PyExc) : bool :=
  match e with
  | KeyboardInterrupt | SystemExit | GeneratorExit => false
  | _ => true
  end.

Inductive outcome (A : Type) : Type :=
  | Ret (a : A)
  | Raise (e : PyExc).
Arguments Ret {A} a.
Arguments Raise {A} e.

Definition obind {A B} (m : outcome A) (f : A -> outcome B) : outcome B :=
  match m with
  | Ret a => f a
  | Raise e => Raise e
  end.

(** [try: body / except Exception: handler]. *)
Definition try_except_Exception {A} (body handler : outcome A) : outcome A :=
  match body with
  | Ret a => Ret a
  | Raise e => if is_Exception e then handler else Raise e
  end.

#[global] Instance outcome_ret : MRet outcome := @Ret.
#[global] Instance outcome_bind : MBind outcome := fun A B f m => obind m f.

(** An outcome is [catchable] when an [except Exception] clause stops it:
    it is a value, or an exception that derives from [Exception]. *)
Definition catchable {A} (m : outcome A) : Prop :=
  match m with
  | Ret _ => True
  | Raise e => is_Exception e = true
  end.

(** ** The objects the handlers read

    An attribute is read each time the code names it; a read either gives the
    attribute's value or raises (a missing attribute, a lazy lookup that
    fails).  A value that is only ever rendered with [%s] is kept as the text
    it renders to. *)

Record UserProfile : Type := { full_name : outcome string }.

Record User : Type := {
  userprofile : outcome UserProfile;
  email : outcome string;
}.

Record HttpRequest : Type := {
  user : outcome User;
  path : outcome string;
  method : outcome string;
  GET : outcome string;
  META : outcome (gmap string string);
}.

(** The triple [(type, value, traceback)] of a caught exception. *)
Record ExcInfo : Type := {
  exc_type : string;
  exc_value : string;
  exc_traceback : list string;
}.

(** A log record: [exc_info] is [None] when the record carries no exception
    information (the attribute is then a false value and cannot be unpacked
    into call arguments). *)
Record LogRecord : Type := {
  getMessage : outcome string;
  exc_info : option ExcInfo;
  request : outcome HttpRequest;
}.

(** Values whose truth the code tests. *)
Inductive PyVal : Type :=
  | PyNone
  | PyBool (b : bool)
  | PyInt (n : Z)
  | PyStr (s : string).

Definition truthy (v : PyVal) : bool :=
  match v with
  | PyNone => false
  | PyBool b => b
  | PyInt n => negb (n =? 0)%Z
  | PyStr EmptyString => false
  | PyStr (String _ _) => true
  end.

(** [a and b or c], where [b] is only evaluated when [a] is true. *)
Definition and_or (a : bool) (b : outcome PyVal) (c : PyVal) : outcome PyVal :=
  if a then v ← b; Ret (if truthy v then v else c) else Ret c.

(** ** Collaborators *)

Record ExceptionReporterFilter : Type := {
  get_post_parameters : HttpRequest -> outcome string;
  get_request_repr : HttpRequest -> outcome string;
}.

Record Reporter : Type := { get_traceback_html : outcome PyVal }.

(** Modelled from the spec: [Recipient] of zephyr.models is not among the
    sources.  The spec calls the kind the handler sends to the channel kind;
    the code names it [Recipient.STREAM].  The other constructors stand for
    the remaining kinds of recipient. *)
Inductive Recipient : Type := STREAM | PERSONAL | HUDDLE.

(** The arguments of one call of [internal_send_message]. *)
Record Message : Type := {
  sender_email : string;
  recipient_type : Recipient;
  recipient_name : string;
  msg_subject : string;
  msg_content : string;
}.

(** The arguments of one call of [mail.mail_admins]. *)
Record Mail : Type := {
  mail_subject : string;
  mail_message : string;
  fail_silently : bool;
  html_message : PyVal;
}.

(** What the module imports and calls.  [MAX_SUBJECT_LENGTH] is the constant
    of zephyr.models, [AdminEmailHandler_format_subject] the method
    [format_subject] that [HumbugAdminEmailHandler] inherits from Django. *)
Record Collaborators : Type := {
  platform_node : string;
  traceback_format_exception : ExcInfo -> list string;
  get_exception_reporter_filter : HttpRequest -> outcome ExceptionReporterFilter;
  ExceptionReporter : option HttpRequest -> bool -> ExcInfo -> outcome Reporter;
  internal_send_message : Message -> outcome unit;
  mail_admins : Mail -> outcome unit;
  MAX_SUBJECT_LENGTH : nat;
  AdminEmailHandler_format_subject : string -> string;
}.

(** ** Effects

    The calls that reach outside the process are recorded, in order. *)

Inductive LogLevel : Type := DEBUG | INFO | WARNING | ERROR | CRITICAL.

Inductive Event : Type :=
  | EvSend (m : Message)
  | EvLog (level : LogLevel) (text : string) (attached : option PyExc)
  | EvMail (m : Mail).

Definition action (A : Type) : Type := list Event -> list Event * outcome A.

Definition aret {A} (a : A) : action A := fun t => (t, Ret a).

Definition abind {A B} (m : action A) (f : A -> action B) : action B :=
  fun t =>
    match m t with
    | (t', Ret a) => f a t'
    | (t', Raise e) => (t', Raise e)
    end.

#[global] Instance action_ret : MRet action := @aret.
#[global] Instance action_bind : MBind action := fun A B f m => abind m f.

(** A computation without effects, run inside an action. *)
Definition lift {A} (m : outcome A) : action A := fun t => (t, m).

(** A call of a collaborator: the call is recorded, then it returns or raises. *)
Definition call {A} (ev : Event) (result : outcome A) : action A :=
  fun t => (t ++ [ev], result).

(** [try: body / except: handler], the bare clause that stops every
    exception; the handler runs with the exception as the current one. *)
Definition try_except {A} (body : action A) (handler : PyExc -> action A) : action A :=
  fun t =>
    match body t with
    | (t', Ret a) => (t', Ret a)
    | (t', Raise e) => handler e t'
    end.

(** [logging.warning(text, exc_info=True)]: the record is logged with the
    current exception attached, and the call returns. *)
Definition logging_warning (text : string) (current : PyExc) : action unit :=
  call (EvLog WARNING text (Some current)) (Ret tt).

Definition run {A} (m : action A) : list Event * outcome A := m [].

(** A monadic [for] loop that threads an accumulator. *)
Fixpoint for_each {A B} (body : B -> A -> outcome B) (l : list A) (acc : B) : outcome B :=
  match l with
  | [] => Ret acc
  | x :: l' => acc' ← body acc x; for_each body l' acc'
  end.

(** ** The module *)

Section Handlers.

Variable env : Collaborators.

(** [format_record(record)]: the subject, the stack trace and the user. *)
Definition stack_trace_of (record : LogRecord) : string :=
  match exc_info record with
  | Some ei => join (traceback_format_exception env ei)
  | None => "No stack trace available"
  end.

Definition user_lookup (record : LogRecord) : outcome string :=
  user ← (request ← request record; user request);
  profile ← userprofile user;
  name ← full_name profile;
  address ← email user;
  Ret (name +:+ " (" +:+ address +:+ ")").

Definition user_info_of (record : LogRecord) : outcome string :=
  try_except_Exception (user_lookup record)
    (Ret "Anonymous user (not logged in)").

Definition format_record (record : LogRecord) : outcome (string * string * string) :=
  message ← getMessage record;
  let subject := platform_node env +:+ ": " +:+ message in
  let stack_trace := stack_trace_of record in
  user_info ← user_info_of record;
  Ret (subject, stack_trace, user_info).

(** [AdminHumbugHandler.format_subject(subject)]. *)
Definition format_subject (subject : string) : string :=
  let formatted_subject := replace cr esc_r (replace nl esc_n subject) in
  slice_to (MAX_SUBJECT_LENGTH env) formatted_subject.

(** The fallback of both handlers when the request cannot be described. *)
Definition log_record_message (record : LogRecord) : outcome string :=
  message ← getMessage record;
  Ret ("Log record message:" +:+ nl +:+ message).

Definition meta_fields : list string := ["REMOTE_ADDR"; "QUERY_STRING"; "SERVER_NAME"].

(** One turn of the loop over [meta_fields]. *)
Definition meta_line (request : HttpRequest) (request_repr field : string) : outcome string :=
  meta ← META request;
  Ret (request_repr +:+ "- " +:+ field +:+ ": " +:+ String DQUOTE
         (default "(None)" (meta !! field) +:+ String DQUOTE nl)).

(** The body of the first [try] of [AdminHumbugHandler.emit]. *)
Definition request_summary (record : LogRecord) : outcome string :=
  request ← request record;
  filter ← get_exception_reporter_filter env request;
  let request_repr := "Request info:" +:+ nl +:+ "~~~~" +:+ nl in
  p ← path request;
  let request_repr := request_repr +:+ "- path: " +:+ p +:+ nl in
  m ← method request;
  request_repr ←
    (if String.eqb m "GET" then
       params ← GET request;
       Ret (request_repr +:+ "- GET: " +:+ params +:+ nl)
     else
       m' ← method request;
       if String.eqb m' "POST" then
         params ← get_post_parameters filter request;
         Ret (request_repr +:+ "- POST: " +:+ params +:+ nl)
       else Ret request_repr);
  request_repr ← for_each (meta_line request) meta_fields request_repr;
  Ret (request_repr +:+ "~~~~").

Definition humbug_request_repr (record : LogRecord) : outcome string :=
  try_except_Exception (request_summary record) (log_record_message record).

Definition humbug_content (user_info stack_trace request_repr : string) : string :=
  "Error generated by " +:+ user_info +:+ nl +:+ nl +:+ "~~~~ pytb" +:+ nl
    +:+ stack_trace +:+ nl +:+ nl +:+ "~~~~" +:+ nl +:+ request_repr.

Definition humbug_message (subject stack_trace user_info request_repr : string) : Message :=
  {| sender_email := "humbug+errors@humbughq.com";
     recipient_type := STREAM;
     recipient_name := "devel";
     msg_subject := format_subject subject;
     msg_content := humbug_content user_info stack_trace request_repr |}.

Definition warning_text : string := "Reporting an exception triggered an exception!".

(** [AdminHumbugHandler.emit(record)]. *)
Definition AdminHumbugHandler_emit (record : LogRecord) : action unit :=
  request_repr ← lift (humbug_request_repr record);
  '(subject, stack_trace, user_info) ← lift (format_record record);
  try_except
    (let m := humbug_message subject stack_trace user_info request_repr in
     call (EvSend m) (internal_send_message env m))
    (fun e => logging_warning warning_text e).

(** The first [try] of [HumbugAdminEmailHandler.emit]: the request that the
    reporter is given, and its description. *)
Definition email_request_repr (record : LogRecord) : outcome (option HttpRequest * string) :=
  try_except_Exception
    (request ← request record;
     filter ← get_exception_reporter_filter env request;
     request_repr ← get_request_repr filter request;
     Ret (Some request, request_repr))
    (request_repr ← log_record_message record;
     Ret (None, request_repr)).

Definition email_message (user_info stack_trace request_repr : string) : string :=
  "Error generated by " +:+ user_info +:+ nl +:+ nl +:+ stack_trace +:+ nl +:+ nl
    +:+ request_repr.

(** [ExceptionReporter(request, is_email=True, *record.exc_info)]: unpacking a
    record without exception information raises before the call. *)
Definition make_reporter (request : option HttpRequest) (record : LogRecord) : outcome Reporter :=
  match exc_info record with
  | Some ei => ExceptionReporter env request true ei
  | None => Raise (TypeError "argument after * must be a sequence")
  end.

(** The body of the second [try] of [HumbugAdminEmailHandler.emit]. *)
Definition build_html (include_html : bool) (request : option HttpRequest)
    (record : LogRecord) : outcome PyVal :=
  reporter ← make_reporter request record;
  and_or include_html (get_traceback_html reporter) PyNone.

Definition email_html_message (include_html : bool) (request : option HttpRequest)
    (record : LogRecord) : outcome PyVal :=
  try_except_Exception (build_html include_html request record) (Ret PyNone).

(** [HumbugAdminEmailHandler.emit(record)]; [include_html] is the handler's
    attribute of that name. *)
Definition HumbugAdminEmailHandler_emit (include_html : bool) (record : LogRecord) : action unit :=
  '(request, request_repr) ← lift (email_request_repr record);
  '(subject, stack_trace, user_info) ← lift (format_record record);
  let message := email_message user_info stack_trace request_repr in
  html ← lift (email_html_message include_html request record);
  let m := {| mail_subject := AdminEmailHandler_format_subject env subject;
              mail_message := message;
              fail_silently := true;
              html_message := html |} in
  call (EvMail m) (mail_admins env m).

End Handlers.

(** ** Sample collaborators and records *)

Module Samples.

Definition alice : User :=
  {| userprofile := Ret {| full_name := Ret "Alice" |};
     email := Ret "alice@x.com" |}.

(** Django's anonymous user has neither a profile nor an address. *)
Definition anonymous : User :=
  {| userprofile := Raise (AttributeError "userprofile");
     email := Raise (AttributeError "email") |}.

Definition foo_meta : gmap string string :=
  <["QUERY_STRING" := "x=1"]> (<["REMOTE_ADDR" := "10.0.0.7"]> ∅).

Definition get_foo (who : outcome User) : HttpRequest :=
  {| user := who;
     path := Ret "/foo";
     method := Ret "GET";
     GET := Ret "<QueryDict: {u'x': [u'1']}>";
     META := Ret foo_meta |}.

Definition post_login : HttpRequest :=
  {| user := Ret alice;
     path := Ret "/login";
     method := Ret "POST";
     GET := Ret "<QueryDict: {}>";
     META := Ret ∅ |}.

(** A request object without a [path] attribute. *)
Definition pathless : HttpRequest :=
  {| user := Ret anonymous;
     path := Raise (AttributeError "path");
     method := Ret "GET";
     GET := Ret "<QueryDict: {}>";
     META := Ret ∅ |}.

Definition safe_filter : ExceptionReporterFilter :=
  {| get_post_parameters := fun _ => Ret "<QueryDict: {u'password': [u'********']}>";
     get_request_repr := fun _ => Ret "<WSGIRequest>" |}.

Definition value_error : ExcInfo :=
  {| exc_type := "ValueError";
     exc_value := "bad input";
     exc_traceback := ["  File views.py, line 3, in home" +:+ nl] |}.

Definition format_frames (ei : ExcInfo) : list string :=
  ("Traceback (most recent call last):" +:+ nl) :: exc_traceback ei
   ++ [exc_type ei +:+ ": " +:+ exc_value ei +:+ nl].

Definition html_page : PyVal := PyStr "<html>ValueError</html>".

(** The privacy filter is cut short while it reads the body of the request. *)
Definition interrupted_filter : ExceptionReporterFilter :=
  {| get_post_parameters := fun _ => Raise SystemExit;
     get_request_repr := fun _ => Raise SystemExit |}.

(** Collaborators that work, with the filter, the bus and the page left open. *)
Definition collaborators (filter : ExceptionReporterFilter)
    (send : Message -> outcome unit) (page : outcome PyVal) : Collaborators :=
  {| platform_node := "staging";
     traceback_format_exception := format_frames;
     get_exception_reporter_filter := fun _ => Ret filter;
     ExceptionReporter := fun _ _ _ => Ret {| get_traceback_html := page |};
     internal_send_message := send;
     mail_admins := fun _ => Ret tt;
     MAX_SUBJECT_LENGTH := 60;
     AdminEmailHandler_format_subject :=
       fun subject => slice_to 989 (replace cr esc_r (replace nl esc_n subject)) |}.

Definition working : Collaborators :=
  collaborators safe_filter (fun _ => Ret tt) (Ret html_page).

(** The message bus is down. *)
Definition bus_down : Collaborators :=
  collaborators safe_filter (fun _ => Raise (OtherException "IOError")) (Ret html_page).

(** The bus call is interrupted from the keyboard. *)
Definition bus_interrupted : Collaborators :=
  collaborators safe_filter (fun _ => Raise KeyboardInterrupt) (Ret html_page).

(** The filter does not come back. *)
Definition filter_interrupted : Collaborators :=
  collaborators interrupted_filter (fun _ => Ret tt) (Ret html_page).

(** The page renders to the empty string. *)
Definition empty_page : Collaborators :=
  collaborators safe_filter (fun _ => Ret tt) (Ret (PyStr EmptyString)).

(** Rendering the page is cut short. *)
Definition page_interrupted : Collaborators :=
  collaborators safe_filter (fun _ => Ret tt) (Raise SystemExit).

(** Rendering the page fails. *)
Definition page_broken : Collaborators :=
  collaborators safe_filter (fun _ => Ret tt) (Raise (OtherException "TemplateSyntaxError")).

Definition db_error : LogRecord :=
  {| getMessage := Ret "DB error";
     exc_info := None;
     request := Ret (get_foo (Ret anonymous)) |}.

Definition alice_failure : LogRecord :=
  {| getMessage := Ret ("view failed" +:+ nl +:+ "retrying" +:+ cr);
     exc_info := Some value_error;
     request := Ret (get_foo (Ret alice)) |}.

Definition login_failure : LogRecord :=
  {| getMessage := Ret "login failed";
     exc_info := Some value_error;
     request := Ret post_login |}.

Definition no_path : LogRecord :=
  {| getMessage := Ret "odd request";
     exc_info := None;
     request := Ret pathless |}.

(** [logging.error("%d rows", "many")]: the arguments do not fit the format,
    and [getMessage] raises. *)
Definition bad_format : LogRecord :=
  {| getMessage := Raise (TypeError "%d format: a number is required, not str");
     exc_info := None;
     request := Raise (AttributeError "request") |}.

(** The lazy lookup of the user is cut short by the worker shutting down. *)
Definition shut_down : LogRecord :=
  {| getMessage := Ret "worker timeout";
     exc_info := None;
     request := Ret (get_foo (Raise SystemExit)) |}.

End Samples.

(** ** Specification-level definitions *)

(** The escaping of a subject as the specification words it: each newline
    becomes a backslash and an [n], each carriage return a backslash and an
    [r], every other character stays. *)
Fixpoint escape_newlines (s : string) : string :=
  match s with
  | EmptyString => EmptyString
  | String c s' =>
      if Ascii.eqb LF c then String BACKSLASH (String "n" (escape_newlines s'))
      else if Ascii.eqb CR c then String BACKSLASH (String "r" (escape_newlines s'))
      else String c (escape_newlines s')
  end.

(** Replacing one character by a string, character by character. *)
Fixpoint subst_char (c : ascii) (new s : string) : string :=
  match s with
  | EmptyString => EmptyString
  | String c' s' =>
      if Ascii.eqb c c' then new +:+ subst_char c new s' else String c' (subst_char c new s')
  end.

Fixpoint occurs (c : ascii) (s : string) : bool :=
  match s with
  | EmptyString => false
  | String c' s' => Ascii.eqb c c' || occurs c s'
  end.

(** The calls of [internal_send_message] in a trace, and the local log calls. *)
Definition sends (trace : list Event) : list Message :=
  omap (fun ev => match ev with EvSend m => Some m | _ => None end) trace.

Definition log_calls (trace : list Event) : list (LogLevel * option PyExc) :=
  omap (fun ev => match ev with EvLog l _ a => Some (l, a) | _ => None end) trace.

Definition mails (trace : list Event) : list Mail :=
  omap (fun ev => match ev with EvMail m => Some m | _ => None end) trace.

(** The three metadata lines of the request block, as the specification
    lists them. *)
Definition meta_block (meta : gmap string string) : string :=
  "- REMOTE_ADDR: " +:+ String DQUOTE (default "(None)" (meta !! "REMOTE_ADDR") +:+ String DQUOTE nl)
  +:+ "- QUERY_STRING: " +:+ String DQUOTE (default "(None)" (meta !! "QUERY_STRING") +:+ String DQUOTE nl)
  +:+ "- SERVER_NAME: " +:+ String DQUOTE (default "(None)" (meta !! "SERVER_NAME") +:+ String DQUOTE nl).

(** The number of occurrences of a character. *)
Fixpoint count_char (c : ascii) (s : string) : nat :=
  match s with
  | EmptyString => 0
  | String c' s' => (if Ascii.eqb c c' then 1 else 0) + count_char c s'
  end.

(** A request that differs from [req] in its [META] dictionary only, and a
    record that differs from [record] in its request only. *)
Definition set_META (req : HttpRequest) (meta : gmap string string) : HttpRequest :=
  {| user := user req;
     path := path req;
     method := method req;
     GET := GET req;
     META := Ret meta |}.

Definition set_request (record : LogRecord) (req : HttpRequest) : LogRecord :=
  {| getMessage := getMessage record;
     exc_info := exc_info record;
     request := Ret req |}.

(** More sample collaborators and records. *)
Module MoreSamples.

(** No filter can be had for the request. *)
Definition no_filter : Collaborators :=
  {| platform_node := platform_node Samples.working;
     traceback_format_exception := traceback_format_exception Samples.working;
     get_exception_reporter_filter := fun _ => Raise (OtherException "ImproperlyConfigured");
     ExceptionReporter := ExceptionReporter Samples.working;
     internal_send_message := internal_send_message Samples.working;
     mail_admins := mail_admins Samples.working;
     MAX_SUBJECT_LENGTH := MAX_SUBJECT_LENGTH Samples.working;
     AdminEmailHandler_format_subject := AdminEmailHandler_format_subject Samples.working |}.

(** The mail transport raises although it was asked to fail silently. *)
Definition mail_down : Collaborators :=
  {| platform_node := platform_node Samples.working;
     traceback_format_exception := traceback_format_exception Samples.working;
     get_exception_reporter_filter := get_exception_reporter_filter Samples.working;
     ExceptionReporter := ExceptionReporter Samples.working;
     internal_send_message := internal_send_message Samples.working;
     mail_admins := fun _ => Raise (OtherException "SMTPException");
     MAX_SUBJECT_LENGTH := MAX_SUBJECT_LENGTH Samples.working;
     AdminEmailHandler_format_subject := AdminEmailHandler_format_subject Samples.working |}.

(** A subject of seventy characters, longer than the sixty that are kept. *)
Definition long_subject : string :=
  "0123456789012345678901234567890123456789012345678901234567890123456789".

(** The message that [db_error] puts on the bus. *)
Definition db_error_message : Message :=
  humbug_message Samples.working "staging: DB error" "No stack trace available"
    "Anonymous user (not logged in)"
    ("Request info:" +:+ nl +:+ "~~~~" +:+ nl
     +:+ "- path: /foo" +:+ nl
     +:+ "- GET: <QueryDict: {u'x': [u'1']}>" +:+ nl
     +:+ "- REMOTE_ADDR: " +:+ String DQUOTE ("10.0.0.7" +:+ String DQUOTE nl)
     +:+ "- QUERY_STRING: " +:+ String DQUOTE ("x=1" +:+ String DQUOTE nl)
     +:+ "- SERVER_NAME: " +:+ String DQUOTE ("(None)" +:+ String DQUOTE nl)
     +:+ "~~~~").

End MoreSamples.

(** * Properties *)

(** One step of a sequence of reads: the bind of a known result. *)
Ltac obind_step := cbn [mbind mret outcome_bind outcome_ret obind].
Ltac obind_step_in H := cbn [mbind mret outcome_bind outcome_ret obind] in H.

(** ** Strings *)

Lemma append_empty_l (s : string) : EmptyString +:+ s = s.
Proof. reflexivity. Qed.

Lemma append_cons c (s t : string) : String c s +:+ t = String c (s +:+ t).
Proof. reflexivity. Qed.

(** Occurrences are taken from the left and do not overlap. *)
Example replace_overlapping : replace "aa" "b" "aaaaa" = "bba".
Proof. reflexivity. Qed.

(** With a pattern of one character, [replace] works character by character. *)
Lemma replace_one_char c new s :
  replace (String c EmptyString) new s = subst_char c new s.
Proof.
  unfold replace. induction s as [|c' s' IH]; simpl; [reflexivity|].
  destruct (ascii_dec c c') as [->|Hne].
  - rewrite Ascii.eqb_refl. simpl.
    replace (String.prefix EmptyString s') with true by (destruct s'; reflexivity).
    now rewrite IH.
  - destruct (Ascii.eqb_spec c c') as [->|_]; [contradiction|]. now rewrite IH.
Qed.

Lemma subst_char_absent c new s : occurs c s = false -> subst_char c new s = s.
Proof.
  induction s as [|c' s' IH]; simpl; [reflexivity|].
  intros [Hc Hs]%orb_false_iff. rewrite Hc. f_equal. now apply IH.
Qed.

Lemma occurs_slice_to c n s : occurs c s = false -> occurs c (slice_to n s) = false.
Proof.
  revert n. induction s as [|d s' IH]; intros [|n]; simpl; try reflexivity.
  intros [Hd Hs]%orb_false_iff. now rewrite Hd, IH.
Qed.

Lemma length_slice_to n s : String.length (slice_to n s) <= n.
Proof.
  revert s. induction n as [|n IH]; intros [|c s]; simpl; try lia.
  specialize (IH s). lia.
Qed.

Lemma slice_to_short n s : String.length s <= n -> slice_to n s = s.
Proof.
  revert n. induction s as [|c s IH]; intros [|n]; simpl; try reflexivity; try lia.
  intros H. f_equal. apply IH. lia.
Qed.

(** The two replacements of [format_subject], one after the other, are the
    escaping of the specification. *)
Lemma replace_twice_escape s :
  replace cr esc_r (replace nl esc_n s) = escape_newlines s.
Proof.
  unfold cr, nl. rewrite !replace_one_char. unfold esc_r, esc_n.
  induction s as [|c s IH]; cbn [subst_char escape_newlines]; [reflexivity|].
  destruct (Ascii.eqb LF c) eqn:Elf.
  - rewrite !append_cons, append_empty_l. cbn [subst_char].
    change (Ascii.eqb CR BACKSLASH) with false. change (Ascii.eqb CR "n") with false.
    cbv iota. now rewrite IH.
  - cbn [subst_char]. destruct (Ascii.eqb CR c) eqn:Ecr.
    + now rewrite !append_cons, append_empty_l, IH.
    + now rewrite IH.
Qed.

Lemma escape_newlines_clean s :
  occurs LF (escape_newlines s) = false /\ occurs CR (escape_newlines s) = false.
Proof.
  induction s as [|c s [IHn IHr]]; cbn [escape_newlines]; [split; reflexivity|].
  destruct (Ascii.eqb LF c) eqn:Elf; [|destruct (Ascii.eqb CR c) eqn:Ecr];
    cbn [occurs]; rewrite IHn, IHr, ?Elf, ?Ecr; split; reflexivity.
Qed.

(** The source's two replacements and its slice are the escaping of the
    specification followed by the cut. *)
Lemma format_subject_spec (env : Collaborators) (subject : string) :
  format_subject env subject
    = slice_to (MAX_SUBJECT_LENGTH env) (escape_newlines subject).
Proof. unfold format_subject. now rewrite replace_twice_escape. Qed.

(** No newline and no carriage return is left in a formatted subject. *)
Lemma format_subject_clean (env : Collaborators) (subject : string) :
  occurs LF (format_subject env subject) = false
  /\ occurs CR (format_subject env subject) = false.
Proof.
  rewrite format_subject_spec.
  destruct (escape_newlines_clean subject) as [Hn Hr].
  split; now apply occurs_slice_to.
Qed.

(** C4. [format_subject] replaces each newline by a backslash and an [n] and
    each carriage return by a backslash and an [r], then truncates: its result
    is the escaped subject cut to [MAX_SUBJECT_LENGTH] characters, and is
    never longer than [MAX_SUBJECT_LENGTH]. *)
Theorem format_subject_escapes_then_truncates (env : Collaborators) (subject : string) :
  format_subject env subject
    = slice_to (MAX_SUBJECT_LENGTH env) (escape_newlines subject)
  /\ String.length (format_subject env subject) <= MAX_SUBJECT_LENGTH env.
Proof.
  split.
  - apply format_subject_spec.
  - rewrite format_subject_spec. apply length_slice_to.
Qed.

Example format_subject_two_lines :
  format_subject Samples.working ("view failed" +:+ nl +:+ "retrying" +:+ cr)
    = "view failed" +:+ esc_n +:+ "retrying" +:+ esc_r.
Proof. reflexivity. Qed.

(** A cut may fall between the backslash and its letter. *)
Example format_subject_cut_in_escape :
  slice_to 3 (replace cr esc_r (replace nl esc_n ("ab" +:+ nl +:+ "c")))
    = String "a" (String "b" (String BACKSLASH EmptyString)).
Proof. reflexivity. Qed.

(** C9. [format_subject] is idempotent: a second application finds no newline
    and no carriage return to replace and nothing to cut. *)
Theorem format_subject_idempotent (env : Collaborators) (subject : string) :
  format_subject env (format_subject env subject) = format_subject env subject.
Proof.
  destruct (format_subject_clean env subject) as [Hn Hr].
  unfold format_subject at 1. unfold cr, nl. rewrite !replace_one_char.
  rewrite (subst_char_absent LF) by exact Hn.
  rewrite (subst_char_absent CR) by exact Hr.
  apply slice_to_short. rewrite format_subject_spec. apply length_slice_to.
Qed.

(** ** [format_record] *)

Lemma user_info_of_cases (record : LogRecord) :
  match user_lookup record with
  | Ret text => user_info_of record = Ret text
  | Raise e =>
      if is_Exception e
      then user_info_of record = Ret "Anonymous user (not logged in)"
      else user_info_of record = Raise e
  end.
Proof.
  unfold user_info_of, try_except_Exception.
  destruct (user_lookup record) as [text|e]; [reflexivity|].
  destruct (is_Exception e); reflexivity.
Qed.

Lemma format_record_unfold (env : Collaborators) (record : LogRecord) (message : string) :
  getMessage record = Ret message ->
  format_record env record =
    match user_info_of record with
    | Ret user_info =>
        Ret (platform_node env +:+ ": " +:+ message, stack_trace_of env record, user_info)
    | Raise e => Raise e
    end.
Proof. intros H. unfold format_record. rewrite H. reflexivity. Qed.

(** The lookup of the user succeeds when each read on the way does. *)
Lemma user_lookup_found (record : LogRecord) req u p name address :
  request record = Ret req -> user req = Ret u -> userprofile u = Ret p ->
  full_name p = Ret name -> email u = Ret address ->
  user_lookup record = Ret (name +:+ " (" +:+ address +:+ ")").
Proof.
  intros Hreq Hu Hp Hn Ha. unfold user_lookup.
  rewrite Hreq. simpl. rewrite Hu. simpl. rewrite Hp. simpl. rewrite Hn. simpl.
  rewrite Ha. reflexivity.
Qed.

(** C2. The stack trace that [format_record] returns is the concatenation of
    the formatted exception frames when the record carries exception
    information, and the text [No stack trace available] when it does not;
    [format_record] returns unless [getMessage] raises or the lookup of the
    user raises outside [Exception]. *)
Theorem format_record_stack_trace (env : Collaborators) (record : LogRecord) :
  match format_record env record with
  | Ret (_, stack_trace, _) =>
      match exc_info record with
      | Some ei => stack_trace = join (traceback_format_exception env ei)
      | None => stack_trace = "No stack trace available"
      end
  | Raise e =>
      getMessage record = Raise e
      \/ (user_lookup record = Raise e /\ is_Exception e = false)
  end.
Proof.
  destruct (getMessage record) as [message|e] eqn:Hmsg.
  - rewrite (format_record_unfold env record message Hmsg).
    pose proof (user_info_of_cases record) as Hcases.
    destruct (user_lookup record) as [text|e] eqn:Hlookup.
    + rewrite Hcases. unfold stack_trace_of. destruct (exc_info record); reflexivity.
    + destruct (is_Exception e) eqn:He; rewrite Hcases.
      * unfold stack_trace_of. destruct (exc_info record); reflexivity.
      * right. split; [reflexivity | exact He].
  - unfold format_record. rewrite Hmsg. left. reflexivity.
Qed.

Example format_record_db_error :
  format_record Samples.working Samples.db_error
    = Ret ("staging: DB error", "No stack trace available", "Anonymous user (not logged in)").
Proof. reflexivity. Qed.

Example format_record_alice_failure :
  format_record Samples.working Samples.alice_failure
    = Ret ("staging: view failed" +:+ nl +:+ "retrying" +:+ cr,
           "Traceback (most recent call last):" +:+ nl
           +:+ "  File views.py, line 3, in home" +:+ nl
           +:+ "ValueError: bad input" +:+ nl,
           "Alice (alice@x.com)").
Proof. reflexivity. Qed.

(** C3, as the code has it. When [getMessage] returns, the user information is
    the full name and the address of the request's user when the lookup
    succeeds, and [Anonymous user (not logged in)] on every failure of the
    lookup with an exception that derives from [Exception]; such an
    exception does not leave [format_record]. *)
Theorem format_record_user_info (env : Collaborators) (record : LogRecord) (message : string) :
  getMessage record = Ret message ->
  (forall req u p name address,
      request record = Ret req -> user req = Ret u -> userprofile u = Ret p ->
      full_name p = Ret name -> email u = Ret address ->
      exists subject stack_trace,
        format_record env record
          = Ret (subject, stack_trace, name +:+ " (" +:+ address +:+ ")"))
  /\ (forall e,
      user_lookup record = Raise e -> is_Exception e = true ->
      exists subject stack_trace,
        format_record env record
          = Ret (subject, stack_trace, "Anonymous user (not logged in)")).
Proof.
  intros Hmsg. rewrite (format_record_unfold env record message Hmsg).
  pose proof (user_info_of_cases record) as Hcases. split.
  - intros req u p name address Hreq Hu Hp Hn Ha.
    rewrite (user_lookup_found record req u p name address Hreq Hu Hp Hn Ha) in Hcases.
    rewrite Hcases. eauto.
  - intros e Hfail He. rewrite Hfail, He in Hcases. rewrite Hcases. eauto.
Qed.

Lemma format_record_user_info_witness :
  (exists subject stack_trace,
      format_record Samples.working Samples.alice_failure
        = Ret (subject, stack_trace, "Alice (alice@x.com)"))
  /\ (exists subject stack_trace,
      format_record Samples.working Samples.db_error
        = Ret (subject, stack_trace, "Anonymous user (not logged in)")).
Proof.
  split.
  - exact (proj1 (format_record_user_info Samples.working Samples.alice_failure _ eq_refl)
             _ _ _ _ _ eq_refl eq_refl eq_refl eq_refl eq_refl).
  - exact (proj2 (format_record_user_info Samples.working Samples.db_error _ eq_refl)
             (AttributeError "userprofile") eq_refl eq_refl).
Defined.

(** C3 as stated fails: an exception of the lookup that does not derive from
    [Exception] passes the [except Exception] clause and leaves
    [format_record]. *)
Lemma format_record_user_info_counterexample :
  user_lookup Samples.shut_down = Raise SystemExit
  /\ format_record Samples.working Samples.shut_down = Raise SystemExit.
Proof. split; reflexivity. Qed.

(** ** [AdminHumbugHandler.emit] *)

Lemma emit_request_repr_raises (env : Collaborators) (record : LogRecord) e :
  humbug_request_repr env record = Raise e ->
  run (AdminHumbugHandler_emit env record) = ([], Raise e).
Proof.
  intros H. unfold run, AdminHumbugHandler_emit, mbind, action_bind, abind, lift.
  rewrite H. reflexivity.
Qed.

Lemma emit_format_record_raises (env : Collaborators) (record : LogRecord) request_repr e :
  humbug_request_repr env record = Ret request_repr ->
  format_record env record = Raise e ->
  run (AdminHumbugHandler_emit env record) = ([], Raise e).
Proof.
  intros H1 H2. unfold run, AdminHumbugHandler_emit, mbind, action_bind, abind, lift.
  rewrite H1, H2. reflexivity.
Qed.

(** Once the request is described and the record formatted, [emit] makes one
    call of the bus, and one warning when that call raises. *)
Lemma emit_reaches_send (env : Collaborators) (record : LogRecord)
    request_repr subject stack_trace user_info :
  humbug_request_repr env record = Ret request_repr ->
  format_record env record = Ret (subject, stack_trace, user_info) ->
  run (AdminHumbugHandler_emit env record) =
    let m := humbug_message env subject stack_trace user_info request_repr in
    match internal_send_message env m with
    | Ret _ => ([EvSend m], Ret tt)
    | Raise e => ([EvSend m; EvLog WARNING warning_text (Some e)], Ret tt)
    end.
Proof.
  intros H1 H2.
  unfold run, AdminHumbugHandler_emit, mbind, action_bind, abind, lift.
  rewrite H1, H2. unfold try_except, call, logging_warning, call. simpl.
  destruct (internal_send_message env _) as [[]|e]; reflexivity.
Qed.

Lemma humbug_request_repr_cases (env : Collaborators) (record : LogRecord) :
  match request_summary env record with
  | Ret block => humbug_request_repr env record = Ret block
  | Raise e =>
      if is_Exception e
      then humbug_request_repr env record = log_record_message record
      else humbug_request_repr env record = Raise e
  end.
Proof.
  unfold humbug_request_repr, try_except_Exception.
  destruct (request_summary env record) as [block|e]; [reflexivity|].
  destruct (is_Exception e); reflexivity.
Qed.

Lemma log_record_message_returns (record : LogRecord) (message : string) :
  getMessage record = Ret message ->
  log_record_message record = Ret ("Log record message:" +:+ nl +:+ message).
Proof. intros H. unfold log_record_message. rewrite H. reflexivity. Qed.

(** C1, as the code has it. [emit] does not raise when [getMessage] returns
    and the reads of the request and of the user raise nothing outside
    [Exception]: the failures of those reads are handled inside [emit], and
    so is every failure of the delivery, whatever its class. *)
Theorem emit_does_not_raise (env : Collaborators) (record : LogRecord) (message : string) :
  getMessage record = Ret message ->
  catchable (request_summary env record) ->
  catchable (user_lookup record) ->
  exists trace, run (AdminHumbugHandler_emit env record) = (trace, Ret tt).
Proof.
  intros Hmsg Hreq Huser.
  assert (exists request_repr, humbug_request_repr env record = Ret request_repr)
    as [request_repr Hrepr].
  { pose proof (humbug_request_repr_cases env record) as Hcases.
    destruct (request_summary env record) as [block|e]; [eauto|].
    simpl in Hreq. rewrite Hreq in Hcases.
    rewrite (log_record_message_returns record message Hmsg) in Hcases. eauto. }
  assert (exists user_info, user_info_of record = Ret user_info) as [user_info Hinfo].
  { pose proof (user_info_of_cases record) as Hcases.
    destruct (user_lookup record) as [text|e]; [eauto|].
    simpl in Huser. rewrite Huser in Hcases. eauto. }
  pose proof (format_record_unfold env record message Hmsg) as Hfmt.
  rewrite Hinfo in Hfmt.
  rewrite (emit_reaches_send env record _ _ _ _ Hrepr Hfmt). cbv zeta.
  destruct (internal_send_message env _); eauto.
Qed.

(** The hypotheses above are the only ways out: an exception that leaves
    [emit] comes from [getMessage], or is outside [Exception] and comes from
    the reads of the request or of the user. *)
Lemma emit_raises_only_when (env : Collaborators) (record : LogRecord) trace e :
  run (AdminHumbugHandler_emit env record) = (trace, Raise e) ->
  getMessage record = Raise e
  \/ (request_summary env record = Raise e /\ is_Exception e = false)
  \/ (user_lookup record = Raise e /\ is_Exception e = false).
Proof.
  intros Hrun.
  destruct (humbug_request_repr env record) as [request_repr|e1] eqn:Hrepr.
  - destruct (format_record env record) as [[[subject stack_trace] user_info]|e2] eqn:Hfmt.
    + rewrite (emit_reaches_send env record _ _ _ _ Hrepr Hfmt) in Hrun. cbv zeta in Hrun.
      destruct (internal_send_message env _); discriminate.
    + rewrite (emit_format_record_raises env record _ _ Hrepr Hfmt) in Hrun.
      injection Hrun as _ ->.
      unfold format_record in Hfmt.
      destruct (getMessage record) as [message|e3]; obind_step_in Hfmt.
      * pose proof (user_info_of_cases record) as Hcases.
        destruct (user_lookup record) as [text|e4].
        -- rewrite Hcases in Hfmt. discriminate.
        -- destruct (is_Exception e4) eqn:He4; rewrite Hcases in Hfmt; [discriminate|].
           injection Hfmt as ->. right. right. split; [reflexivity | exact He4].
      * left. congruence.
  - rewrite (emit_request_repr_raises env record _ Hrepr) in Hrun.
    injection Hrun as _ ->.
    pose proof (humbug_request_repr_cases env record) as Hcases.
    destruct (request_summary env record) as [block|e2]; [congruence|].
    destruct (is_Exception e2) eqn:He2.
    + rewrite Hrepr in Hcases. unfold log_record_message in Hcases.
      destruct (getMessage record) as [message|e3]; obind_step_in Hcases.
      * discriminate.
      * left. congruence.
    + right. left. split; [congruence | congruence].
Qed.

(** The scenario of a failed database call on [GET /foo?x=1] by an anonymous
    user: one message to [devel]. *)
Example emit_db_error :
  run (AdminHumbugHandler_emit Samples.working Samples.db_error)
    = ([EvSend
          {| sender_email := "humbug+errors@humbughq.com";
             recipient_type := STREAM;
             recipient_name := "devel";
             msg_subject := "staging: DB error";
             msg_content :=
               "Error generated by Anonymous user (not logged in)" +:+ nl +:+ nl
               +:+ "~~~~ pytb" +:+ nl
               +:+ "No stack trace available" +:+ nl +:+ nl
               +:+ "~~~~" +:+ nl
               +:+ "Request info:" +:+ nl +:+ "~~~~" +:+ nl
               +:+ "- path: /foo" +:+ nl
               +:+ "- GET: <QueryDict: {u'x': [u'1']}>" +:+ nl
               +:+ "- REMOTE_ADDR: " +:+ String DQUOTE ("10.0.0.7" +:+ String DQUOTE nl)
               +:+ "- QUERY_STRING: " +:+ String DQUOTE ("x=1" +:+ String DQUOTE nl)
               +:+ "- SERVER_NAME: " +:+ String DQUOTE ("(None)" +:+ String DQUOTE nl)
               +:+ "~~~~" |}],
        Ret tt).
Proof. reflexivity. Qed.

Lemma emit_does_not_raise_witness :
  exists trace,
    run (AdminHumbugHandler_emit Samples.bus_interrupted Samples.no_path) = (trace, Ret tt).
Proof.
  exact (emit_does_not_raise Samples.bus_interrupted Samples.no_path _ eq_refl eq_refl eq_refl).
Defined.

(** C1 as stated fails: a record whose [getMessage] raises makes [emit] raise,
    from the fallback of the request block; and an exception outside
    [Exception] raised by the lookup of the user leaves [emit] through
    [format_record], which no [try] encloses. *)
Lemma emit_does_not_raise_counterexample :
  run (AdminHumbugHandler_emit Samples.working Samples.bad_format)
    = ([], Raise (TypeError "%d format: a number is required, not str"))
  /\ run (AdminHumbugHandler_emit Samples.working Samples.shut_down)
    = ([], Raise SystemExit).
Proof. split; reflexivity. Qed.

Lemma append_assoc (a b c : string) : (a +:+ b) +:+ c = a +:+ (b +:+ c).
Proof. induction a as [|x a IH]; [reflexivity|]. rewrite !append_cons. now rewrite IH. Qed.

(** The loop over the three metadata fields adds the three lines. *)
Lemma meta_lines (request : HttpRequest) (meta : gmap string string) (request_repr : string) :
  META request = Ret meta ->
  for_each (meta_line request) meta_fields request_repr
    = Ret (request_repr +:+ meta_block meta).
Proof.
  intros H. unfold meta_fields, for_each, meta_line. rewrite H. simpl.
  unfold meta_block. rewrite !append_assoc. reflexivity.
Qed.

(** The request block when every read succeeds, by method. *)
Lemma request_summary_built (env : Collaborators) (record : LogRecord) req flt p m meta :
  request record = Ret req ->
  get_exception_reporter_filter env req = Ret flt ->
  path req = Ret p -> method req = Ret m -> META req = Ret meta ->
  request_summary env record =
    (let head := "Request info:" +:+ nl +:+ "~~~~" +:+ nl +:+ "- path: " +:+ p +:+ nl in
     if String.eqb m "GET" then
       params ← GET req;
       Ret (head +:+ "- GET: " +:+ params +:+ nl +:+ meta_block meta +:+ "~~~~")
     else if String.eqb m "POST" then
       params ← get_post_parameters flt req;
       Ret (head +:+ "- POST: " +:+ params +:+ nl +:+ meta_block meta +:+ "~~~~")
     else Ret (head +:+ meta_block meta +:+ "~~~~")).
Proof.
  intros Hreq Hflt Hp Hm Hmeta. unfold request_summary.
  rewrite Hreq. obind_step. rewrite Hflt. obind_step. rewrite Hp. obind_step.
  rewrite Hm. obind_step.
  destruct (String.eqb m "GET").
  - destruct (GET req) as [params|e]; obind_step; [|reflexivity].
    rewrite (meta_lines req meta _ Hmeta). obind_step.
    rewrite !append_assoc. reflexivity.
  - obind_step. destruct (String.eqb m "POST").
    + destruct (get_post_parameters flt req) as [params|e]; obind_step; [|reflexivity].
      rewrite (meta_lines req meta _ Hmeta). obind_step.
      rewrite !append_assoc. reflexivity.
    + obind_step. rewrite (meta_lines req meta _ Hmeta). obind_step.
      rewrite !append_assoc. reflexivity.
Qed.

(** C5, as the code has it. When the reads succeed, the request block holds
    the path, then the GET parameters for a GET request or the filtered POST
    parameters for a POST request (no parameters for another method), then the
    three metadata fields, each [(None)] when absent.  When building the
    block raises an exception that derives from [Exception] and [getMessage]
    returns, the block is the text [Log record message:], a newline and the
    message, and nothing propagates. *)
Theorem request_block (env : Collaborators) (record : LogRecord) :
  (forall req flt p m meta,
      request record = Ret req ->
      get_exception_reporter_filter env req = Ret flt ->
      path req = Ret p -> method req = Ret m -> META req = Ret meta ->
      let head := "Request info:" +:+ nl +:+ "~~~~" +:+ nl +:+ "- path: " +:+ p +:+ nl in
      (forall params, m = "GET" -> GET req = Ret params ->
         humbug_request_repr env record
           = Ret (head +:+ "- GET: " +:+ params +:+ nl +:+ meta_block meta +:+ "~~~~"))
      /\ (forall params, m = "POST" -> get_post_parameters flt req = Ret params ->
         humbug_request_repr env record
           = Ret (head +:+ "- POST: " +:+ params +:+ nl +:+ meta_block meta +:+ "~~~~"))
      /\ (m <> "GET" -> m <> "POST" ->
         humbug_request_repr env record = Ret (head +:+ meta_block meta +:+ "~~~~")))
  /\ (forall e message,
      request_summary env record = Raise e -> is_Exception e = true ->
      getMessage record = Ret message ->
      humbug_request_repr env record = Ret ("Log record message:" +:+ nl +:+ message)).
Proof.
  pose proof (humbug_request_repr_cases env record) as Hcases. split.
  - intros req flt p m meta Hreq Hflt Hp Hm Hmeta head.
    rewrite (request_summary_built env record req flt p m meta Hreq Hflt Hp Hm Hmeta) in Hcases.
    cbv zeta in Hcases. fold head in Hcases. repeat split.
    + intros params -> Hget. simpl in Hcases. rewrite Hget in Hcases. exact Hcases.
    + intros params -> Hpost. simpl in Hcases. rewrite Hpost in Hcases. exact Hcases.
    + intros Hnot_get Hnot_post.
      apply String.eqb_neq in Hnot_get, Hnot_post.
      rewrite Hnot_get, Hnot_post in Hcases. exact Hcases.
  - intros e message Hfail He Hmsg. rewrite Hfail, He in Hcases.
    rewrite Hcases. now apply log_record_message_returns.
Qed.

Lemma request_block_witness :
  humbug_request_repr Samples.working Samples.db_error
    = Ret ("Request info:" +:+ nl +:+ "~~~~" +:+ nl
           +:+ "- path: /foo" +:+ nl
           +:+ "- GET: <QueryDict: {u'x': [u'1']}>" +:+ nl
           +:+ "- REMOTE_ADDR: " +:+ String DQUOTE ("10.0.0.7" +:+ String DQUOTE nl)
           +:+ "- QUERY_STRING: " +:+ String DQUOTE ("x=1" +:+ String DQUOTE nl)
           +:+ "- SERVER_NAME: " +:+ String DQUOTE ("(None)" +:+ String DQUOTE nl)
           +:+ "~~~~")
  /\ humbug_request_repr Samples.working Samples.no_path
    = Ret ("Log record message:" +:+ nl +:+ "odd request").
Proof.
  split.
  - exact (proj1 (proj1 (request_block Samples.working Samples.db_error)
                    _ _ _ _ _ eq_refl eq_refl eq_refl eq_refl eq_refl)
             _ eq_refl eq_refl).
  - exact (proj2 (request_block Samples.working Samples.no_path)
             (AttributeError "path") _ eq_refl eq_refl eq_refl).
Defined.

(** C5 as stated fails twice.  A record without a request whose [getMessage]
    raises: building the block raises [AttributeError], the fallback calls
    [getMessage], and that exception propagates.  A POST request whose
    filter is cut short by [SystemExit]: the [except Exception] clause lets it
    pass. *)
Lemma request_block_counterexample :
  (request_summary Samples.working Samples.bad_format = Raise (AttributeError "request")
   /\ humbug_request_repr Samples.working Samples.bad_format
      = Raise (TypeError "%d format: a number is required, not str"))
  /\ (request_summary Samples.filter_interrupted Samples.login_failure = Raise SystemExit
   /\ humbug_request_repr Samples.filter_interrupted Samples.login_failure
      = Raise SystemExit).
Proof. repeat split; reflexivity. Qed.

(** C6. When the call of the message bus raises, whatever the exception,
    [emit] stops it, makes exactly one local log call, at the warning level
    and with the exception attached, and returns. *)
Theorem send_failure_is_logged (env : Collaborators) (record : LogRecord)
    request_repr subject stack_trace user_info (e : PyExc) :
  humbug_request_repr env record = Ret request_repr ->
  format_record env record = Ret (subject, stack_trace, user_info) ->
  internal_send_message env
    (humbug_message env subject stack_trace user_info request_repr) = Raise e ->
  snd (run (AdminHumbugHandler_emit env record)) = Ret tt
  /\ log_calls (fst (run (AdminHumbugHandler_emit env record))) = [(WARNING, Some e)]
  /\ fst (run (AdminHumbugHandler_emit env record))
     = [EvSend (humbug_message env subject stack_trace user_info request_repr);
        EvLog WARNING "Reporting an exception triggered an exception!" (Some e)].
Proof.
  intros Hrepr Hfmt Hsend.
  rewrite (emit_reaches_send env record _ _ _ _ Hrepr Hfmt). cbv zeta.
  rewrite Hsend. repeat split.
Qed.

Lemma send_failure_is_logged_witness :
  (snd (run (AdminHumbugHandler_emit Samples.bus_down Samples.login_failure)) = Ret tt
   /\ log_calls (fst (run (AdminHumbugHandler_emit Samples.bus_down Samples.login_failure)))
      = [(WARNING, Some (OtherException "IOError"))])
  /\ (snd (run (AdminHumbugHandler_emit Samples.bus_interrupted Samples.db_error)) = Ret tt
   /\ log_calls (fst (run (AdminHumbugHandler_emit Samples.bus_interrupted Samples.db_error)))
      = [(WARNING, Some KeyboardInterrupt)]).
Proof.
  split.
  - pose proof (send_failure_is_logged Samples.bus_down Samples.login_failure
                  _ _ _ _ _ eq_refl eq_refl eq_refl) as (H1 & H2 & _).
    exact (conj H1 H2).
  - pose proof (send_failure_is_logged Samples.bus_interrupted Samples.db_error
                  _ _ _ _ _ eq_refl eq_refl eq_refl) as (H1 & H2 & _).
    exact (conj H1 H2).
Defined.

(** C7. The call of the message bus that [emit] makes has the sender
    [humbug+errors@humbughq.com], the stream kind of recipient, the stream
    [devel], the subject cut by [format_subject], and the body made of the
    user, the stack trace and the request block in the fixed frame.  [emit]
    makes that call, once, whenever the request block and the formatted
    record are there; it makes no other. *)
Theorem emit_sends_to_devel (env : Collaborators) (record : LogRecord) :
  (forall request_repr subject stack_trace user_info,
      humbug_request_repr env record = Ret request_repr ->
      format_record env record = Ret (subject, stack_trace, user_info) ->
      sends (fst (run (AdminHumbugHandler_emit env record)))
        = [ {| sender_email := "humbug+errors@humbughq.com";
               recipient_type := STREAM;
               recipient_name := "devel";
               msg_subject := format_subject env subject;
               msg_content :=
                 "Error generated by " +:+ user_info +:+ nl +:+ nl
                 +:+ "~~~~ pytb" +:+ nl +:+ stack_trace +:+ nl +:+ nl
                 +:+ "~~~~" +:+ nl +:+ request_repr |} ])
  /\ (forall m,
      In m (sends (fst (run (AdminHumbugHandler_emit env record)))) ->
      sender_email m = "humbug+errors@humbughq.com"
      /\ recipient_type m = STREAM
      /\ recipient_name m = "devel"
      /\ exists request_repr subject stack_trace user_info,
           humbug_request_repr env record = Ret request_repr
           /\ format_record env record = Ret (subject, stack_trace, user_info)
           /\ msg_subject m = format_subject env subject
           /\ msg_content m =
                "Error generated by " +:+ user_info +:+ nl +:+ nl
                +:+ "~~~~ pytb" +:+ nl +:+ stack_trace +:+ nl +:+ nl
                +:+ "~~~~" +:+ nl +:+ request_repr).
Proof.
  split.
  - intros request_repr subject stack_trace user_info Hrepr Hfmt.
    rewrite (emit_reaches_send env record _ _ _ _ Hrepr Hfmt). cbv zeta.
    destruct (internal_send_message env _); reflexivity.
  - intros m Hin.
    destruct (humbug_request_repr env record) as [request_repr|e] eqn:Hrepr.
    + destruct (format_record env record) as [[[subject stack_trace] user_info]|e] eqn:Hfmt.
      * rewrite (emit_reaches_send env record _ _ _ _ Hrepr Hfmt) in Hin. cbv zeta in Hin.
        assert (m = humbug_message env subject stack_trace user_info request_repr) as ->.
        { destruct (internal_send_message env _); simpl in Hin;
            destruct Hin as [<-|[]]; reflexivity. }
        repeat split. exists request_repr, subject, stack_trace, user_info.
        repeat split.
      * rewrite (emit_format_record_raises env record _ _ Hrepr Hfmt) in Hin.
        destruct Hin.
    + rewrite (emit_request_repr_raises env record _ Hrepr) in Hin. destruct Hin.
Qed.

Lemma emit_sends_to_devel_witness :
  sends (fst (run (AdminHumbugHandler_emit Samples.working Samples.alice_failure)))
    = [ {| sender_email := "humbug+errors@humbughq.com";
           recipient_type := STREAM;
           recipient_name := "devel";
           msg_subject := "staging: view failed" +:+ esc_n +:+ "retrying" +:+ esc_r;
           msg_content :=
             "Error generated by Alice (alice@x.com)" +:+ nl +:+ nl
             +:+ "~~~~ pytb" +:+ nl
             +:+ join (Samples.format_frames Samples.value_error) +:+ nl +:+ nl
             +:+ "~~~~" +:+ nl
             +:+ "Request info:" +:+ nl +:+ "~~~~" +:+ nl
             +:+ "- path: /foo" +:+ nl
             +:+ "- GET: <QueryDict: {u'x': [u'1']}>" +:+ nl
             +:+ meta_block Samples.foo_meta +:+ "~~~~" |} ].
Proof.
  exact (proj1 (emit_sends_to_devel Samples.working Samples.alice_failure)
           _ _ _ _ eq_refl eq_refl).
Defined.

(** ** [HumbugAdminEmailHandler.emit] *)

Lemma email_emit_request_repr_raises (env : Collaborators) include_html (record : LogRecord) e :
  email_request_repr env record = Raise e ->
  run (HumbugAdminEmailHandler_emit env include_html record) = ([], Raise e).
Proof.
  intros H. unfold run, HumbugAdminEmailHandler_emit, mbind, action_bind, abind, lift.
  rewrite H. reflexivity.
Qed.

Lemma email_emit_format_record_raises (env : Collaborators) include_html
    (record : LogRecord) request request_repr e :
  email_request_repr env record = Ret (request, request_repr) ->
  format_record env record = Raise e ->
  run (HumbugAdminEmailHandler_emit env include_html record) = ([], Raise e).
Proof.
  intros H1 H2. unfold run, HumbugAdminEmailHandler_emit, mbind, action_bind, abind, lift.
  rewrite H1, H2. reflexivity.
Qed.

(** Once the request is described and the record formatted, the mail goes
    out unless the HTML step raises. *)
Lemma email_emit_reaches_html (env : Collaborators) include_html (record : LogRecord)
    request request_repr subject stack_trace user_info :
  email_request_repr env record = Ret (request, request_repr) ->
  format_record env record = Ret (subject, stack_trace, user_info) ->
  run (HumbugAdminEmailHandler_emit env include_html record) =
    match email_html_message env include_html request record with
    | Ret html =>
        let m := {| mail_subject := AdminEmailHandler_format_subject env subject;
                    mail_message := email_message user_info stack_trace request_repr;
                    fail_silently := true;
                    html_message := html |} in
        ([EvMail m], mail_admins env m)
    | Raise e => ([], Raise e)
    end.
Proof.
  intros H1 H2. unfold run, HumbugAdminEmailHandler_emit, mbind, action_bind, abind, lift.
  rewrite H1, H2.
  destruct (email_html_message env include_html request record); reflexivity.
Qed.

Lemma email_html_message_cases (env : Collaborators) include_html request (record : LogRecord) :
  match build_html env include_html request record with
  | Ret html => email_html_message env include_html request record = Ret html
  | Raise e =>
      if is_Exception e
      then email_html_message env include_html request record = Ret PyNone
      else email_html_message env include_html request record = Raise e
  end.
Proof.
  unfold email_html_message, try_except_Exception.
  destruct (build_html env include_html request record) as [html|e]; [reflexivity|].
  destruct (is_Exception e); reflexivity.
Qed.

(** A page comes out of the HTML step only with [include_html] set and
    exception information on the record. *)
Lemma email_html_message_some (env : Collaborators) include_html request
    (record : LogRecord) (html : PyVal) :
  email_html_message env include_html request record = Ret html ->
  html <> PyNone ->
  include_html = true /\ is_Some (exc_info record).
Proof.
  intros Hhtml Hsome. pose proof (email_html_message_cases env include_html request record) as Hcases.
  unfold build_html, make_reporter in Hcases.
  destruct (exc_info record) as [ei|].
  - split; [|eauto]. destruct include_html; [reflexivity|].
    destruct (ExceptionReporter env request true ei) as [reporter|e]; obind_step.
    + cbn in Hcases. congruence.
    + cbn in Hcases. destruct (is_Exception e); congruence.
  - cbn in Hcases. congruence.
Qed.

(** A page that is a false value is replaced by [None]. *)
Lemma build_html_falsy (env : Collaborators) include_html request (record : LogRecord)
    reporter (rendered : PyVal) :
  make_reporter env request record = Ret reporter ->
  get_traceback_html reporter = Ret rendered ->
  truthy rendered = false ->
  build_html env include_html request record = Ret PyNone.
Proof.
  intros Hrep Hpage Hfalse. unfold build_html, and_or. rewrite Hrep. obind_step.
  destruct include_html; [|reflexivity].
  rewrite Hpage. obind_step. now rewrite Hfalse.
Qed.

(** C8, as the code has it. The mail carries an HTML body only when
    [include_html] is set and the record carries exception information; when
    building the HTML body raises an exception that derives from
    [Exception], the mail is sent with no HTML body and that exception does
    not propagate. *)
Theorem html_body_only_when_enabled (env : Collaborators) (include_html : bool)
    (record : LogRecord) :
  (forall m,
      In m (mails (fst (run (HumbugAdminEmailHandler_emit env include_html record)))) ->
      html_message m <> PyNone ->
      include_html = true /\ is_Some (exc_info record))
  /\ (forall request request_repr subject stack_trace user_info e,
      email_request_repr env record = Ret (request, request_repr) ->
      format_record env record = Ret (subject, stack_trace, user_info) ->
      build_html env include_html request record = Raise e ->
      is_Exception e = true ->
      let m := {| mail_subject := AdminEmailHandler_format_subject env subject;
                  mail_message :=
                    "Error generated by " +:+ user_info +:+ nl +:+ nl
                    +:+ stack_trace +:+ nl +:+ nl +:+ request_repr;
                  fail_silently := true;
                  html_message := PyNone |} in
      run (HumbugAdminEmailHandler_emit env include_html record)
        = ([EvMail m], mail_admins env m)).
Proof.
  split.
  - intros m Hin Hsome.
    destruct (email_request_repr env record) as [[request request_repr]|e] eqn:Hrepr.
    + destruct (format_record env record) as [[[subject stack_trace] user_info]|e] eqn:Hfmt.
      * rewrite (email_emit_reaches_html env include_html record _ _ _ _ _ Hrepr Hfmt) in Hin.
        destruct (email_html_message env include_html request record) as [html|e] eqn:Hhtml.
        -- cbv zeta in Hin. simpl in Hin. destruct Hin as [<-|[]]. simpl in Hsome.
           exact (email_html_message_some env include_html request record html Hhtml Hsome).
        -- destruct Hin.
      * rewrite (email_emit_format_record_raises env include_html record _ _ _ Hrepr Hfmt) in Hin.
        destruct Hin.
    + rewrite (email_emit_request_repr_raises env include_html record _ Hrepr) in Hin.
      destruct Hin.
  - intros request request_repr subject stack_trace user_info e Hrepr Hfmt Hfail He m.
    rewrite (email_emit_reaches_html env include_html record _ _ _ _ _ Hrepr Hfmt).
    pose proof (email_html_message_cases env include_html request record) as Hcases.
    rewrite Hfail, He in Hcases. rewrite Hcases. reflexivity.
Qed.

Lemma html_body_only_when_enabled_witness :
  (true = true /\ is_Some (exc_info Samples.alice_failure))
  /\ mails (fst (run (HumbugAdminEmailHandler_emit Samples.page_broken true Samples.alice_failure)))
     = [ {| mail_subject := "staging: view failed" +:+ esc_n +:+ "retrying" +:+ esc_r;
            mail_message :=
              "Error generated by Alice (alice@x.com)" +:+ nl +:+ nl
              +:+ join (Samples.format_frames Samples.value_error) +:+ nl +:+ nl
              +:+ "<WSGIRequest>";
            fail_silently := true;
            html_message := PyNone |} ].
Proof.
  split.
  - refine (proj1 (html_body_only_when_enabled Samples.working true Samples.alice_failure)
              {| mail_subject := "staging: view failed" +:+ esc_n +:+ "retrying" +:+ esc_r;
                 mail_message :=
                   "Error generated by Alice (alice@x.com)" +:+ nl +:+ nl
                   +:+ join (Samples.format_frames Samples.value_error) +:+ nl +:+ nl
                   +:+ "<WSGIRequest>";
                 fail_silently := true;
                 html_message := Samples.html_page |} _ _).
    + left. reflexivity.
    + discriminate.
  - exact (f_equal (fun r => mails (fst r))
             (proj2 (html_body_only_when_enabled Samples.page_broken true Samples.alice_failure)
                _ _ _ _ _ (OtherException "TemplateSyntaxError")
                eq_refl eq_refl eq_refl eq_refl)).
Defined.

(** C8 as stated fails: when rendering the page is cut short by [SystemExit],
    the [except Exception] clause lets it pass; no mail is sent and the
    exception leaves [emit]. *)
Lemma html_body_only_when_enabled_counterexample :
  email_request_repr Samples.page_interrupted Samples.alice_failure
    = Ret (Some (Samples.get_foo (Ret Samples.alice)), "<WSGIRequest>")
  /\ build_html Samples.page_interrupted true
       (Some (Samples.get_foo (Ret Samples.alice))) Samples.alice_failure
     = Raise SystemExit
  /\ run (HumbugAdminEmailHandler_emit Samples.page_interrupted true Samples.alice_failure)
     = ([], Raise SystemExit).
Proof. repeat split; reflexivity. Qed.

(** C10. When the page renders to the empty string, or to another false
    value, the [html_message] given to [mail_admins] is [None], not that
    value. *)
Theorem falsy_html_becomes_None (env : Collaborators) (include_html : bool)
    (record : LogRecord) request request_repr subject stack_trace user_info
    reporter (rendered : PyVal) :
  email_request_repr env record = Ret (request, request_repr) ->
  format_record env record = Ret (subject, stack_trace, user_info) ->
  make_reporter env request record = Ret reporter ->
  get_traceback_html reporter = Ret rendered ->
  truthy rendered = false ->
  map html_message
    (mails (fst (run (HumbugAdminEmailHandler_emit env include_html record)))) = [PyNone].
Proof.
  intros Hrepr Hfmt Hrep Hpage Hfalse.
  rewrite (email_emit_reaches_html env include_html record _ _ _ _ _ Hrepr Hfmt).
  pose proof (email_html_message_cases env include_html request record) as Hcases.
  rewrite (build_html_falsy env include_html request record reporter rendered
             Hrep Hpage Hfalse) in Hcases.
  rewrite Hcases. reflexivity.
Qed.

Lemma falsy_html_becomes_None_witness :
  map html_message
    (mails (fst (run (HumbugAdminEmailHandler_emit Samples.empty_page true Samples.alice_failure))))
    = [PyNone].
Proof.
  exact (falsy_html_becomes_None Samples.empty_page true Samples.alice_failure
           _ _ _ _ _ _ (PyStr EmptyString) eq_refl eq_refl eq_refl eq_refl eq_refl).
Defined.

(** * Further properties *)

(** ** [format_subject] *)

Lemma escape_newlines_app (s t : string) :
  escape_newlines (s +:+ t) = escape_newlines s +:+ escape_newlines t.
Proof.
  induction s as [|c s IH]; [reflexivity|].
  rewrite append_cons. cbn [escape_newlines].
  destruct (Ascii.eqb LF c); [|destruct (Ascii.eqb CR c)];
    rewrite IH, ?append_cons; reflexivity.
Qed.

Lemma escape_newlines_absent (s : string) :
  occurs LF s = false -> occurs CR s = false -> escape_newlines s = s.
Proof.
  induction s as [|c s IH]; [reflexivity|]. cbn [occurs escape_newlines].
  intros [Hlf Hn]%orb_false_iff [Hcr Hr]%orb_false_iff.
  rewrite Hlf, Hcr. f_equal. now apply IH.
Qed.

Lemma length_escape_newlines (s : string) :
  String.length (escape_newlines s)
    = String.length s + count_char LF s + count_char CR s.
Proof.
  induction s as [|c s IH]; [reflexivity|]. cbn [escape_newlines count_char].
  destruct (Ascii.eqb LF c) eqn:Elf.
  - apply Ascii.eqb_eq in Elf. subst c.
    change (Ascii.eqb CR LF) with false. cbn [String.length]. lia.
  - destruct (Ascii.eqb CR c); cbn [String.length]; lia.
Qed.

Lemma length_slice_to_min (n : nat) (s : string) :
  String.length (slice_to n s) = Nat.min n (String.length s).
Proof.
  revert s. induction n as [|n IH]; intros [|c s]; simpl; try reflexivity.
  now rewrite IH.
Qed.

Lemma slice_to_app_long (n : nat) (s t : string) :
  n <= String.length s -> slice_to n (s +:+ t) = slice_to n s.
Proof.
  revert s. induction n as [|n IH]; intros [|c s]; simpl; try reflexivity; try lia.
  intros H. f_equal. apply IH. lia.
Qed.

(** X1. The length of a formatted subject is the length of the subject plus
    one for each newline and each carriage return, capped at
    [MAX_SUBJECT_LENGTH]. *)
Theorem format_subject_length (env : Collaborators) (subject : string) :
  String.length (format_subject env subject)
    = Nat.min (MAX_SUBJECT_LENGTH env)
        (String.length subject + count_char LF subject + count_char CR subject).
Proof.
  rewrite format_subject_spec, length_slice_to_min. now rewrite length_escape_newlines.
Qed.

(** X2. [format_subject] leaves a subject as it is exactly when the subject
    holds no newline, no carriage return, and is at most
    [MAX_SUBJECT_LENGTH] long. *)
Theorem format_subject_fixed_iff (env : Collaborators) (subject : string) :
  format_subject env subject = subject
  <-> occurs LF subject = false /\ occurs CR subject = false
      /\ String.length subject <= MAX_SUBJECT_LENGTH env.
Proof.
  split.
  - intros Hfix. destruct (format_subject_clean env subject) as [Hn Hr].
    pose proof (length_slice_to (MAX_SUBJECT_LENGTH env) (escape_newlines subject)) as Hlen.
    rewrite <- format_subject_spec in Hlen. rewrite Hfix in Hn, Hr, Hlen. auto.
  - intros (Hn & Hr & Hlen). rewrite format_subject_spec.
    rewrite (escape_newlines_absent subject Hn Hr). now apply slice_to_short.
Qed.

(** X3. The backslash is not escaped, so the escaping cannot be undone: a
    newline and the two characters backslash, [n] give the same formatted
    subject, and so do a carriage return and backslash, [r]. *)
Theorem format_subject_collision (env : Collaborators) (s t : string) :
  format_subject env (s +:+ nl +:+ t) = format_subject env (s +:+ esc_n +:+ t)
  /\ format_subject env (s +:+ cr +:+ t) = format_subject env (s +:+ esc_r +:+ t).
Proof.
  rewrite !format_subject_spec, !escape_newlines_app. split; reflexivity.
Qed.

(** X4. Once the escaped subject fills [MAX_SUBJECT_LENGTH], what follows it
    is dropped whole. *)
Theorem format_subject_ignores_tail (env : Collaborators) (s t : string) :
  MAX_SUBJECT_LENGTH env <= String.length (escape_newlines s) ->
  format_subject env (s +:+ t) = format_subject env s.
Proof.
  intros H. rewrite !format_subject_spec, escape_newlines_app.
  now apply slice_to_app_long.
Qed.

Lemma format_subject_ignores_tail_witness :
  format_subject Samples.working (MoreSamples.long_subject +:+ nl +:+ "lost")
    = format_subject Samples.working MoreSamples.long_subject.
Proof.
  apply (format_subject_ignores_tail Samples.working MoreSamples.long_subject).
  vm_compute. lia.
Defined.

(** ** [format_record] and [AdminHumbugHandler.emit] *)

Lemma format_record_inversion (env : Collaborators) (record : LogRecord)
    subject stack_trace user_info :
  format_record env record = Ret (subject, stack_trace, user_info) ->
  exists message,
    getMessage record = Ret message
    /\ subject = platform_node env +:+ ": " +:+ message
    /\ stack_trace = stack_trace_of env record
    /\ user_info_of record = Ret user_info.
Proof.
  intros H. unfold format_record in H.
  destruct (getMessage record) as [message|e]; obind_step_in H; [|discriminate].
  destruct (user_info_of record) as [text|e]; obind_step_in H; [|discriminate].
  injection H as <- <- <-. eauto.
Qed.

(** The three ways [emit] can go: it raises before anything is sent, it sends,
    or it sends, fails and warns. *)
Lemma emit_run_cases (env : Collaborators) (record : LogRecord) :
  (exists e, run (AdminHumbugHandler_emit env record) = ([], Raise e))
  \/ (exists request_repr subject stack_trace user_info,
        humbug_request_repr env record = Ret request_repr
        /\ format_record env record = Ret (subject, stack_trace, user_info)
        /\ ((internal_send_message env
               (humbug_message env subject stack_trace user_info request_repr) = Ret tt
             /\ run (AdminHumbugHandler_emit env record)
                = ([EvSend (humbug_message env subject stack_trace user_info request_repr)],
                   Ret tt))
            \/ (exists e,
                 internal_send_message env
                   (humbug_message env subject stack_trace user_info request_repr) = Raise e
                 /\ run (AdminHumbugHandler_emit env record)
                    = ([EvSend (humbug_message env subject stack_trace user_info request_repr);
                        EvLog WARNING warning_text (Some e)],
                       Ret tt)))).
Proof.
  destruct (humbug_request_repr env record) as [request_repr|e] eqn:Hrepr.
  - destruct (format_record env record) as [[[subject stack_trace] user_info]|e] eqn:Hfmt.
    + right. exists request_repr, subject, stack_trace, user_info.
      split; [reflexivity|]. split; [reflexivity|].
      rewrite (emit_reaches_send env record _ _ _ _ Hrepr Hfmt). cbv zeta.
      destruct (internal_send_message env _) as [[]|e]; [left|right]; eauto.
    + left. exists e. now apply (emit_format_record_raises env record request_repr).
  - left. exists e. now apply emit_request_repr_raises.
Qed.

(** X5. The subject of the message on the bus is made of the host name and
    the record's message only: it is their escaped forms around a colon, cut
    to [MAX_SUBJECT_LENGTH]. *)
Theorem emit_subject_on_bus (env : Collaborators) (record : LogRecord) (m : Message) :
  In m (sends (fst (run (AdminHumbugHandler_emit env record)))) ->
  exists message,
    getMessage record = Ret message
    /\ msg_subject m
       = slice_to (MAX_SUBJECT_LENGTH env)
           (escape_newlines (platform_node env) +:+ ": " +:+ escape_newlines message).
Proof.
  intros Hin.
  destruct (emit_run_cases env record)
    as [[e Hrun] | (rr & s & st & u & Hrepr & Hfmt & [[_ Hrun] | (e & _ & Hrun)])];
    rewrite Hrun in Hin; simpl in Hin.
  - destruct Hin.
  - destruct Hin as [<-|[]].
    destruct (format_record_inversion env record s st u Hfmt) as (message & Hmsg & -> & _).
    exists message. split; [exact Hmsg|]. cbn [msg_subject humbug_message].
    rewrite format_subject_spec, !escape_newlines_app. reflexivity.
  - destruct Hin as [<-|[]].
    destruct (format_record_inversion env record s st u Hfmt) as (message & Hmsg & -> & _).
    exists message. split; [exact Hmsg|]. cbn [msg_subject humbug_message].
    rewrite format_subject_spec, !escape_newlines_app. reflexivity.
Qed.

Lemma emit_subject_on_bus_witness :
  exists message,
    getMessage Samples.db_error = Ret message
    /\ msg_subject MoreSamples.db_error_message
       = slice_to (MAX_SUBJECT_LENGTH Samples.working)
           (escape_newlines (platform_node Samples.working) +:+ ": "
            +:+ escape_newlines message).
Proof.
  apply (emit_subject_on_bus Samples.working Samples.db_error MoreSamples.db_error_message).
  vm_compute. left. reflexivity.
Defined.

(** X6. What [emit] does and never does, for every record: it mails nobody,
    calls the bus at most once, logs at most once and only at the warning
    level, logs only after a call of the bus that raised, with that exception
    attached, and logs nothing when the call of the bus returned. *)
Theorem emit_trace_discipline (env : Collaborators) (record : LogRecord) :
  mails (fst (run (AdminHumbugHandler_emit env record))) = []
  /\ length (sends (fst (run (AdminHumbugHandler_emit env record)))) <= 1
  /\ length (log_calls (fst (run (AdminHumbugHandler_emit env record)))) <= 1
  /\ (forall lvl attached,
        In (lvl, attached) (log_calls (fst (run (AdminHumbugHandler_emit env record)))) ->
        lvl = WARNING
        /\ exists m e,
             attached = Some e
             /\ In m (sends (fst (run (AdminHumbugHandler_emit env record))))
             /\ internal_send_message env m = Raise e)
  /\ (forall m,
        In m (sends (fst (run (AdminHumbugHandler_emit env record)))) ->
        internal_send_message env m = Ret tt ->
        log_calls (fst (run (AdminHumbugHandler_emit env record))) = []).
Proof.
  destruct (emit_run_cases env record)
    as [[e Hrun] | (rr & s & st & u & Hrepr & Hfmt & [[Hok Hrun] | (e & Hfail & Hrun)])];
    rewrite Hrun; simpl; repeat split; try lia; try (intros; contradiction).
  - match goal with H : _ ∨ False |- _ => destruct H as [Heq|[]] end.
    now injection Heq as <- _.
  - match goal with H : _ ∨ False |- _ => destruct H as [Heq|[]] end.
    injection Heq as _ <-.
    exists (humbug_message env s st u rr), e. repeat split; [left; reflexivity | exact Hfail].
  - intros m [<-|[]] Hok. congruence.
Qed.

(** X7. When [emit] raises, nothing was sent and nothing was logged, and the
    exception is the one of [getMessage], or one outside [Exception] that
    came from the reads of the request or of the user. *)
Theorem emit_raise_leaves_no_trace (env : Collaborators) (record : LogRecord)
    (trace : list Event) (e : PyExc) :
  run (AdminHumbugHandler_emit env record) = (trace, Raise e) ->
  trace = []
  /\ (getMessage record = Raise e
      \/ (request_summary env record = Raise e /\ is_Exception e = false)
      \/ (user_lookup record = Raise e /\ is_Exception e = false)).
Proof.
  intros Hrun. split; [|exact (emit_raises_only_when env record trace e Hrun)].
  destruct (emit_run_cases env record)
    as [[e' Hrun'] | (rr & s & st & u & _ & _ & [[_ Hrun'] | (e' & _ & Hrun')])];
    rewrite Hrun' in Hrun; congruence.
Qed.

Lemma emit_raise_leaves_no_trace_witness :
  @nil Event = []
  /\ (getMessage Samples.shut_down = Raise SystemExit
      \/ (request_summary Samples.working Samples.shut_down = Raise SystemExit
          /\ is_Exception SystemExit = false)
      \/ (user_lookup Samples.shut_down = Raise SystemExit
          /\ is_Exception SystemExit = false)).
Proof.
  exact (emit_raise_leaves_no_trace Samples.working Samples.shut_down [] SystemExit eq_refl).
Defined.

(** ** The request block *)

Lemma meta_block_insert_other (meta : gmap string string) (k v : string) :
  k ∉ meta_fields -> meta_block (<[k:=v]> meta) = meta_block meta.
Proof.
  unfold meta_fields. rewrite !not_elem_of_cons. intros (H1 & H2 & H3 & _).
  unfold meta_block. now rewrite !lookup_insert_ne by done.
Qed.

Lemma meta_lines_raise (request : HttpRequest) (e : PyExc) (request_repr : string) :
  META request = Raise e ->
  for_each (meta_line request) meta_fields request_repr = Raise e.
Proof. intros H. unfold meta_fields, for_each, meta_line. now rewrite H. Qed.

(** X8. Of the [META] dictionary only the three named fields reach the
    report: with another key added or changed (a cookie, a header), and
    a filter that answers as before, the request block is the same. *)
Theorem request_block_ignores_other_meta (env : Collaborators) (record : LogRecord)
    (req : HttpRequest) (meta : gmap string string) (k v : string) :
  request record = Ret req ->
  META req = Ret meta ->
  k ∉ meta_fields ->
  get_exception_reporter_filter env (set_META req (<[k:=v]> meta))
    = get_exception_reporter_filter env req ->
  (forall flt,
      get_exception_reporter_filter env req = Ret flt ->
      get_post_parameters flt (set_META req (<[k:=v]> meta))
        = get_post_parameters flt req) ->
  humbug_request_repr env (set_request record (set_META req (<[k:=v]> meta)))
    = humbug_request_repr env record.
Proof.
  intros Hreq Hmeta Hk Hflt Hpost.
  pose proof (meta_block_insert_other meta k v Hk) as Hblock.
  assert (forall acc,
             for_each (meta_line (set_META req (<[k:=v]> meta))) meta_fields acc
             = for_each (meta_line req) meta_fields acc) as Hloop.
  { intros acc. rewrite (meta_lines req meta acc Hmeta).
    rewrite (meta_lines (set_META req (<[k:=v]> meta)) (<[k:=v]> meta) acc eq_refl).
    now rewrite Hblock. }
  unfold humbug_request_repr.
  change (log_record_message (set_request record (set_META req (<[k:=v]> meta))))
    with (log_record_message record).
  f_equal. unfold request_summary. cbn [request set_request]. rewrite Hreq. obind_step.
  rewrite Hflt.
  destruct (get_exception_reporter_filter env req) as [flt|e] eqn:Hfilter; obind_step;
    [|reflexivity].
  specialize (Hpost flt eq_refl). cbn [path method GET set_META].
  destruct (path req) as [p|e]; obind_step; [|reflexivity].
  destruct (method req) as [m|e]; obind_step; [|reflexivity].
  destruct (String.eqb m "GET").
  - destruct (GET req) as [params|e]; obind_step; [|reflexivity]. now rewrite Hloop.
  - destruct (String.eqb m "POST").
    + rewrite Hpost. destruct (get_post_parameters flt req) as [params|e]; obind_step;
        [|reflexivity].
      now rewrite Hloop.
    + obind_step. now rewrite Hloop.
Qed.

Lemma request_block_ignores_other_meta_witness :
  humbug_request_repr Samples.working
    (set_request Samples.db_error
       (set_META (Samples.get_foo (Ret Samples.anonymous))
          (<["HTTP_COOKIE" := "sessionid=4f0c"]> Samples.foo_meta)))
    = humbug_request_repr Samples.working Samples.db_error.
Proof.
  apply (request_block_ignores_other_meta Samples.working Samples.db_error
           (Samples.get_foo (Ret Samples.anonymous)) Samples.foo_meta
           "HTTP_COOKIE" "sessionid=4f0c").
  - reflexivity.
  - reflexivity.
  - unfold meta_fields. rewrite !not_elem_of_cons.
    repeat split; try discriminate. apply not_elem_of_nil.
  - reflexivity.
  - intros flt Hfilter. injection Hfilter as <-. reflexivity.
Defined.

(** When the summary is built, every read on the way succeeded. *)
Lemma request_summary_reads (env : Collaborators) (record : LogRecord) (block : string) :
  request_summary env record = Ret block ->
  exists req flt p m meta,
    request record = Ret req
    /\ get_exception_reporter_filter env req = Ret flt
    /\ path req = Ret p /\ method req = Ret m /\ META req = Ret meta.
Proof.
  intros Hsum. unfold request_summary in Hsum.
  destruct (request record) as [req|e] eqn:Hreq; obind_step_in Hsum; [|discriminate].
  destruct (get_exception_reporter_filter env req) as [flt|e] eqn:Hflt;
    obind_step_in Hsum; [|discriminate].
  destruct (path req) as [p|e] eqn:Hp; obind_step_in Hsum; [|discriminate].
  destruct (method req) as [m|e] eqn:Hm; obind_step_in Hsum; [|discriminate].
  destruct (META req) as [meta|e] eqn:Hmeta; [exists req, flt, p, m, meta; auto|].
  exfalso.
  destruct (String.eqb m "GET").
  - destruct (GET req) as [params|e']; obind_step_in Hsum; [|discriminate].
    rewrite (meta_lines_raise req e _ Hmeta) in Hsum. discriminate.
  - destruct (String.eqb m "POST").
    + destruct (get_post_parameters flt req) as [params|e']; obind_step_in Hsum;
        [|discriminate].
      rewrite (meta_lines_raise req e _ Hmeta) in Hsum. discriminate.
    + obind_step_in Hsum. rewrite (meta_lines_raise req e _ Hmeta) in Hsum. discriminate.
Qed.

(** X9. The request block is never partial: when [emit] has a block, either
    every read succeeded (the request, the filter, the path, the method,
    the parameters the method calls for, the [META] dictionary) and the block
    is the full summary, or the block is the fallback with the record's
    message. *)
Theorem request_block_complete_or_fallback (env : Collaborators) (record : LogRecord)
    (text : string) :
  humbug_request_repr env record = Ret text ->
  (exists req flt p m meta line,
      request record = Ret req
      /\ get_exception_reporter_filter env req = Ret flt
      /\ path req = Ret p /\ method req = Ret m /\ META req = Ret meta
      /\ ((m = "GET" /\ exists params, GET req = Ret params
                                     /\ line = "- GET: " +:+ params +:+ nl)
          \/ (m = "POST" /\ exists params, get_post_parameters flt req = Ret params
                                         /\ line = "- POST: " +:+ params +:+ nl)
          \/ (m <> "GET" /\ m <> "POST" /\ line = EmptyString))
      /\ text = "Request info:" +:+ nl +:+ "~~~~" +:+ nl +:+ "- path: " +:+ p +:+ nl
                +:+ line +:+ meta_block meta +:+ "~~~~")
  \/ (exists message,
      getMessage record = Ret message
      /\ text = "Log record message:" +:+ nl +:+ message).
Proof.
  intros Htext. pose proof (humbug_request_repr_cases env record) as Hcases.
  destruct (request_summary env record) as [block|e] eqn:Hsum.
  - left. rewrite Htext in Hcases. injection Hcases as <-.
    destruct (request_summary_reads env record text Hsum)
      as (req & flt & p & m & meta & Hreq & Hflt & Hp & Hm & Hmeta).
    rewrite (request_summary_built env record req flt p m meta Hreq Hflt Hp Hm Hmeta)
      in Hsum.
    cbv zeta in Hsum.
    destruct (String.eqb_spec m "GET") as [Hget|Hnot_get].
    + destruct (GET req) as [params|e] eqn:Hparams; obind_step_in Hsum; [|discriminate].
      injection Hsum as <-.
      exists req, flt, p, m, meta, ("- GET: " +:+ params +:+ nl).
      repeat split; try assumption.
      * left. eauto.
      * now rewrite !append_assoc.
    + destruct (String.eqb_spec m "POST") as [Hpost|Hnot_post].
      * destruct (get_post_parameters flt req) as [params|e] eqn:Hparams;
          obind_step_in Hsum; [|discriminate].
        injection Hsum as <-.
        exists req, flt, p, m, meta, ("- POST: " +:+ params +:+ nl).
        repeat split; try assumption.
        -- right. left. eauto.
        -- now rewrite !append_assoc.
      * injection Hsum as <-.
        exists req, flt, p, m, meta, EmptyString.
        repeat split; try assumption.
        -- right. right. auto.
        -- now rewrite !append_assoc.
  - destruct (is_Exception e); [|congruence].
    right. rewrite Htext in Hcases. unfold log_record_message in Hcases.
    destruct (getMessage record) as [message|e']; obind_step_in Hcases; [|discriminate].
    injection Hcases as ->. eauto.
Qed.

Lemma request_block_complete_or_fallback_witness :
  (exists req flt p m meta line,
      request Samples.no_path = Ret req
      /\ get_exception_reporter_filter Samples.working req = Ret flt
      /\ path req = Ret p /\ method req = Ret m /\ META req = Ret meta
      /\ ((m = "GET" /\ exists params, GET req = Ret params
                                     /\ line = "- GET: " +:+ params +:+ nl)
          \/ (m = "POST" /\ exists params, get_post_parameters flt req = Ret params
                                         /\ line = "- POST: " +:+ params +:+ nl)
          \/ (m <> "GET" /\ m <> "POST" /\ line = EmptyString))
      /\ "Log record message:" +:+ nl +:+ "odd request"
         = "Request info:" +:+ nl +:+ "~~~~" +:+ nl +:+ "- path: " +:+ p +:+ nl
           +:+ line +:+ meta_block meta +:+ "~~~~")
  \/ (exists message,
      getMessage Samples.no_path = Ret message
      /\ "Log record message:" +:+ nl +:+ "odd request"
         = "Log record message:" +:+ nl +:+ message).
Proof.
  exact (request_block_complete_or_fallback Samples.working Samples.no_path
           ("Log record message:" +:+ nl +:+ "odd request") eq_refl).
Defined.

(** ** [HumbugAdminEmailHandler.emit] *)

Lemma format_record_raise_cause (env : Collaborators) (record : LogRecord) (e : PyExc) :
  format_record env record = Raise e ->
  getMessage record = Raise e \/ is_Exception e = false.
Proof.
  intros H. unfold format_record in H.
  destruct (getMessage record) as [message|e']; obind_step_in H; [|left; congruence].
  right. pose proof (user_info_of_cases record) as Hcases.
  destruct (user_info_of record) as [text|e'] eqn:Hinfo; obind_step_in H; [discriminate|].
  injection H as ->.
  destruct (user_lookup record) as [text|e']; [discriminate|].
  destruct (is_Exception e') eqn:He'; congruence.
Qed.

(** The two ways the mail handler can go: it raises before the mail, or it
    calls [mail_admins] once and ends as that call does. *)
Lemma email_emit_run_cases (env : Collaborators) (include_html : bool) (record : LogRecord) :
  (exists e, run (HumbugAdminEmailHandler_emit env include_html record) = ([], Raise e)
             /\ (getMessage record = Raise e \/ is_Exception e = false))
  \/ (exists request request_repr subject stack_trace user_info html,
        email_request_repr env record = Ret (request, request_repr)
        /\ format_record env record = Ret (subject, stack_trace, user_info)
        /\ email_html_message env include_html request record = Ret html
        /\ run (HumbugAdminEmailHandler_emit env include_html record)
           = ([EvMail {| mail_subject := AdminEmailHandler_format_subject env subject;
                         mail_message := email_message user_info stack_trace request_repr;
                         fail_silently := true;
                         html_message := html |}],
              mail_admins env
                {| mail_subject := AdminEmailHandler_format_subject env subject;
                   mail_message := email_message user_info stack_trace request_repr;
                   fail_silently := true;
                   html_message := html |})).
Proof.
  destruct (email_request_repr env record) as [[request request_repr]|e] eqn:Hrepr.
  - destruct (format_record env record) as [[[subject stack_trace] user_info]|e] eqn:Hfmt.
    + pose proof (email_emit_reaches_html env include_html record _ _ _ _ _ Hrepr Hfmt)
        as Hrun.
      destruct (email_html_message env include_html request record) as [html|e] eqn:Hhtml.
      * right. exists request, request_repr, subject, stack_trace, user_info, html. auto.
      * left. exists e. split; [exact Hrun|]. right.
        pose proof (email_html_message_cases env include_html request record) as Hcases.
        destruct (build_html env include_html request record) as [v|e']; [congruence|].
        destruct (is_Exception e') eqn:He'; congruence.
    + left. exists e.
      split; [now apply (email_emit_format_record_raises env include_html record
                           request request_repr)|].
      exact (format_record_raise_cause env record e Hfmt).
  - left. exists e. split; [now apply email_emit_request_repr_raises|].
    unfold email_request_repr, try_except_Exception in Hrepr.
    match type of Hrepr with
    | match ?body with _ => _ end = _ => destruct body as [v|e'] eqn:Hbody
    end; [discriminate|].
    destruct (is_Exception e') eqn:He'.
    + unfold log_record_message in Hrepr.
      destruct (getMessage record) as [message|e'']; obind_step_in Hrepr; [discriminate|].
      left. congruence.
    + right. congruence.
Qed.

(** X10. The request that the mail handler passes on is all or nothing: it
    is the record's request only when the filter was had and described it;
    after any failure on the way, also one that comes after the request
    itself was read, what is passed on is [None] and the description is the
    fallback with the record's message. *)
Theorem email_request_absent_on_failure (env : Collaborators) (record : LogRecord)
    (passed : option HttpRequest) (request_repr : string) :
  email_request_repr env record = Ret (passed, request_repr) ->
  match passed with
  | Some req =>
      request record = Ret req
      /\ exists flt,
           get_exception_reporter_filter env req = Ret flt
           /\ get_request_repr flt req = Ret request_repr
  | None =>
      (exists message,
          getMessage record = Ret message
          /\ request_repr = "Log record message:" +:+ nl +:+ message)
      /\ exists e,
           is_Exception e = true
           /\ (request record = Raise e
               \/ exists req,
                    request record = Ret req
                    /\ (get_exception_reporter_filter env req = Raise e
                        \/ exists flt,
                             get_exception_reporter_filter env req = Ret flt
                             /\ get_request_repr flt req = Raise e))
  end.
Proof.
  intros H. unfold email_request_repr, try_except_Exception in H.
  assert (forall e, is_Exception e = true ->
            (if is_Exception e
             then (request_repr0 ← log_record_message record;
                   Ret (@None HttpRequest, request_repr0))
             else Raise e) = Ret (passed, request_repr) ->
            passed = None
            /\ exists message,
                 getMessage record = Ret message
                 /\ request_repr = "Log record message:" +:+ nl +:+ message) as Hfallback.
  { intros e He Heq. rewrite He in Heq. unfold log_record_message in Heq.
    destruct (getMessage record) as [message|e']; obind_step_in Heq; [|discriminate].
    injection Heq as <- <-. eauto. }
  destruct (request record) as [req|e] eqn:Hreq; obind_step_in H.
  - destruct (get_exception_reporter_filter env req) as [flt|e] eqn:Hflt; obind_step_in H.
    + destruct (get_request_repr flt req) as [text|e] eqn:Htext; obind_step_in H.
      * injection H as <- <-. eauto.
      * destruct (is_Exception e) eqn:He; [|discriminate].
        destruct (Hfallback e He) as [-> Hmsg]; [now rewrite He|].
        split; [exact Hmsg|]. exists e. split; [exact He|]. right. exists req. eauto.
    + destruct (is_Exception e) eqn:He; [|discriminate].
      destruct (Hfallback e He) as [-> Hmsg]; [now rewrite He|].
      split; [exact Hmsg|]. exists e. split; [exact He|]. right. exists req. eauto.
  - destruct (is_Exception e) eqn:He; [|discriminate].
    destruct (Hfallback e He) as [-> Hmsg]; [now rewrite He|].
    split; [exact Hmsg|]. exists e. eauto.
Qed.

(** The request is there, but no filter can be had: the reporter is given
    [None]. *)
Lemma email_request_absent_on_failure_witness :
  (exists message,
      getMessage Samples.db_error = Ret message
      /\ "Log record message:" +:+ nl +:+ "DB error"
         = "Log record message:" +:+ nl +:+ message)
  /\ exists e,
       is_Exception e = true
       /\ (request Samples.db_error = Raise e
           \/ exists req,
                request Samples.db_error = Ret req
                /\ (get_exception_reporter_filter MoreSamples.no_filter req = Raise e
                    \/ exists flt,
                         get_exception_reporter_filter MoreSamples.no_filter req = Ret flt
                         /\ get_request_repr flt req = Raise e)).
Proof.
  exact (email_request_absent_on_failure MoreSamples.no_filter Samples.db_error
           None ("Log record message:" +:+ nl +:+ "DB error") eq_refl).
Defined.

(** X11. What the mail handler does and never does, for every record: it
    sends nothing on the bus, logs nothing, and calls [mail_admins] at most
    once; that call asks for silent failure, its subject is the inherited
    [format_subject] of the host name, a colon and the record's message, and
    its body is the user, the stack trace and the description of the request
    in the fixed frame. *)
Theorem email_mail_shape (env : Collaborators) (include_html : bool) (record : LogRecord) :
  sends (fst (run (HumbugAdminEmailHandler_emit env include_html record))) = []
  /\ log_calls (fst (run (HumbugAdminEmailHandler_emit env include_html record))) = []
  /\ length (mails (fst (run (HumbugAdminEmailHandler_emit env include_html record)))) <= 1
  /\ (forall m,
        In m (mails (fst (run (HumbugAdminEmailHandler_emit env include_html record)))) ->
        fail_silently m = true
        /\ exists message user_info passed request_repr,
             getMessage record = Ret message
             /\ user_info_of record = Ret user_info
             /\ email_request_repr env record = Ret (passed, request_repr)
             /\ mail_subject m
                = AdminEmailHandler_format_subject env
                    (platform_node env +:+ ": " +:+ message)
             /\ mail_message m
                = "Error generated by " +:+ user_info +:+ nl +:+ nl
                  +:+ match exc_info record with
                      | Some ei => join (traceback_format_exception env ei)
                      | None => "No stack trace available"
                      end
                  +:+ nl +:+ nl +:+ request_repr).
Proof.
  destruct (email_emit_run_cases env include_html record)
    as [(e & Hrun & _) | (passed & rr & s & st & u & html & Hrepr & Hfmt & Hhtml & Hrun)];
    rewrite Hrun; cbn [fst sends log_calls mails omap list_omap length];
    repeat split; try lia; try (intros; contradiction).
  - match goal with H : In _ _ |- _ => destruct H as [<-|[]] end. reflexivity.
  - match goal with H : In _ _ |- _ => destruct H as [<-|[]] end.
    destruct (format_record_inversion env record s st u Hfmt)
      as (message & Hmsg & -> & -> & Hinfo).
    exists message, u, passed, rr. repeat split; assumption.
Qed.

Lemma email_mail_html (env : Collaborators) (include_html : bool) (record : LogRecord)
    passed request_repr subject stack_trace user_info (html : PyVal) :
  email_request_repr env record = Ret (passed, request_repr) ->
  format_record env record = Ret (subject, stack_trace, user_info) ->
  build_html env include_html passed record = Ret html ->
  map html_message
    (mails (fst (run (HumbugAdminEmailHandler_emit env include_html record)))) = [html].
Proof.
  intros Hrepr Hfmt Hhtml.
  rewrite (email_emit_reaches_html env include_html record _ _ _ _ _ Hrepr Hfmt).
  pose proof (email_html_message_cases env include_html passed record) as Hcases.
  rewrite Hhtml in Hcases. rewrite Hcases. reflexivity.
Qed.

(** X12. With [include_html] set, exception information on the record, a
    reporter built for the request that was passed on (as an e-mail report)
    and a page that is a true value, the mail carries exactly that page. *)
Theorem email_html_included (env : Collaborators) (record : LogRecord)
    passed request_repr subject stack_trace user_info ei reporter (page : PyVal) :
  email_request_repr env record = Ret (passed, request_repr) ->
  format_record env record = Ret (subject, stack_trace, user_info) ->
  exc_info record = Some ei ->
  ExceptionReporter env passed true ei = Ret reporter ->
  get_traceback_html reporter = Ret page ->
  truthy page = true ->
  map html_message
    (mails (fst (run (HumbugAdminEmailHandler_emit env true record)))) = [page].
Proof.
  intros Hrepr Hfmt Hei Hrep Hpage Htrue.
  apply (email_mail_html env true record _ _ _ _ _ page Hrepr Hfmt).
  unfold build_html, make_reporter, and_or. rewrite Hei, Hrep. obind_step.
  rewrite Hpage. obind_step. now rewrite Htrue.
Qed.

Lemma email_html_included_witness :
  map html_message
    (mails (fst (run (HumbugAdminEmailHandler_emit Samples.working true
                        Samples.alice_failure))))
    = [Samples.html_page].
Proof.
  exact (email_html_included Samples.working Samples.alice_failure
           _ _ _ _ _ _ _ Samples.html_page
           eq_refl eq_refl eq_refl eq_refl eq_refl eq_refl).
Defined.

(** X13. With [include_html] unset the page is never rendered: once the
    reporter is built the mail goes out without an HTML body, whatever
    rendering the page would have done, raising included. *)
Theorem email_html_not_rendered_when_disabled (env : Collaborators) (record : LogRecord)
    passed request_repr subject stack_trace user_info ei reporter :
  email_request_repr env record = Ret (passed, request_repr) ->
  format_record env record = Ret (subject, stack_trace, user_info) ->
  exc_info record = Some ei ->
  ExceptionReporter env passed true ei = Ret reporter ->
  map html_message
    (mails (fst (run (HumbugAdminEmailHandler_emit env false record)))) = [PyNone].
Proof.
  intros Hrepr Hfmt Hei Hrep.
  apply (email_mail_html env false record _ _ _ _ _ PyNone Hrepr Hfmt).
  unfold build_html, make_reporter, and_or. now rewrite Hei, Hrep.
Qed.

(** The page would be cut short by [SystemExit]; it is not asked for. *)
Lemma email_html_not_rendered_when_disabled_witness :
  map html_message
    (mails (fst (run (HumbugAdminEmailHandler_emit Samples.page_interrupted false
                        Samples.alice_failure))))
    = [PyNone].
Proof.
  exact (email_html_not_rendered_when_disabled Samples.page_interrupted
           Samples.alice_failure _ _ _ _ _ _ _
           eq_refl eq_refl eq_refl eq_refl).
Defined.

(** X14. An exception that leaves the mail handler either comes before the
    mail, and then nothing was mailed and it is the exception of
    [getMessage] or one outside [Exception]; or it is the exception of
    [mail_admins] itself, which the handler does not stop. *)
Theorem email_emit_raises_only_when (env : Collaborators) (include_html : bool)
    (record : LogRecord) (trace : list Event) (e : PyExc) :
  run (HumbugAdminEmailHandler_emit env include_html record) = (trace, Raise e) ->
  (trace = [] /\ (getMessage record = Raise e \/ is_Exception e = false))
  \/ (exists m, trace = [EvMail m] /\ fail_silently m = true
                /\ mail_admins env m = Raise e).
Proof.
  intros Hrun.
  destruct (email_emit_run_cases env include_html record)
    as [(e' & Hrun' & Hcause) | (passed & rr & s & st & u & html & _ & _ & _ & Hrun')];
    rewrite Hrun' in Hrun.
  - injection Hrun as <- <-. left. auto.
  - injection Hrun as <- Hmail. right. eauto.
Qed.

Lemma email_emit_raises_only_when_witness :
  (fst (run (HumbugAdminEmailHandler_emit MoreSamples.mail_down true Samples.db_error)) = []
   /\ (getMessage Samples.db_error = Raise (OtherException "SMTPException")
       \/ is_Exception (OtherException "SMTPException") = false))
  \/ (exists m,
        fst (run (HumbugAdminEmailHandler_emit MoreSamples.mail_down true Samples.db_error))
          = [EvMail m]
        /\ fail_silently m = true
        /\ mail_admins MoreSamples.mail_down m = Raise (OtherException "SMTPException")).
Proof.
  exact (email_emit_raises_only_when MoreSamples.mail_down true Samples.db_error
           (fst (run (HumbugAdminEmailHandler_emit MoreSamples.mail_down true
                        Samples.db_error)))
           (OtherException "SMTPException") eq_refl).
Defined.
